(** * sled-message: the Cumulus message adapter (src/message/message.py)

    A shallow embedding of class [message] and of the Python operations its
    methods rely on, followed by the properties of the natural-language
    specification that were checked against it.

    Conventions of the embedding.
    - A Python value that can come out of [json.loads] is a [value]; a dict
      is kept as an association list in iteration order, with unique keys.
      Floating-point numbers are not represented.
    - A Python exception is an [exn]; a computation that may raise returns a
      [result]; a computation that also reaches a collaborator (S3, the uuid
      generator, the clock) runs in [M], over an explicit [world].
    - Inside a method, a bare name such as [__getConfig] or
      [storeRemoteResponse] is a global lookup (after name mangling,
      [_message__getConfig]); it is resolved through an explicit
      [namespace].  [module_globals] is the namespace of the module as it is
      written. *)

From Stdlib Require Import String Ascii List ZArith Bool Lia DecimalString.
From stdpp Require Import gmap strings.
Import ListNotations.

Set Warnings "-register-all".

Local Open Scope string_scope.
Local Open Scope list_scope.

(** ** Python values *)

Inductive value : Type :=
| VNone
| VBool (b : bool)
| VInt (z : Z)
| VStr (s : string)
| VList (items : list value)
| VDict (entries : list (string * value)).

Definition pydict : Type := list (string * value).

(** ** Exceptions

    [KeyError] and [IndexError] are subclasses of [LookupError]; the process
    boundary catches them with [except LookupError]. *)

Inductive exn : Type :=
| NameError (name : string)
| KeyError (key : value)
| IndexError (msg : string)
| LookupError (msg : string)
| AttributeError (type_name attr : string)
| TypeError (msg : string)
| ParseError (msg : string)
| ClientError (msg : string).

Definition is_LookupError (e : exn) : bool :=
  match e with
  | KeyError _ | IndexError _ | LookupError _ => true
  | _ => false
  end.

Inductive result (A : Type) : Type :=
| Ok (a : A)
| Raise (e : exn).
Arguments Ok {A} a.
Arguments Raise {A} e.

(** ** The world outside the process *)

Record world : Type := mkWorld {
  s3_objects : gmap (string * string) string;  (* (bucket, key) -> body *)
  uuid_source : nat -> string;                 (* the uuid4 generator *)
  uuid_drawn : nat;                            (* how many were drawn *)
  utc_now : Z                                  (* the clock *)
}.

Definition M (A : Type) : Type := world -> result A * world.

Definition bind_result {A B} (c : result A) (k : A -> result B) : result B :=
  match c with
  | Ok a => k a
  | Raise e => Raise e
  end.

Definition bind_M {A B} (c : M A) (k : A -> M B) : M B :=
  fun w =>
    match c w with
    | (Ok a, w') => k a w'
    | (Raise e, w') => (Raise e, w')
    end.

Notation "'let*' x := c 'in' k" := (bind_result c (fun x => k))
  (at level 10, x name, c at level 100, k at level 200,
   format "'[v' 'let*'  x  :=  c  'in' '/' k ']'").

Notation "'do' x <- c 'in' k" := (bind_M c (fun x => k))
  (at level 10, x name, c at level 100, k at level 200,
   format "'[v' 'do'  x  <-  c  'in' '/' k ']'").

Definition pure {A} (a : A) : M A := fun w => (Ok a, w).
Definition lift {A} (r : result A) : M A := fun w => (r, w).
Definition raise {A} (e : exn) : M A := fun w => (Raise e, w).

(** ** Strings *)

Definition ascii_eqb (a b : ascii) : bool := Ascii.eqb a b.

Definition nl : ascii := "010"%char.
Definition lbrace : ascii := "{"%char.
Definition rbrace : ascii := "}"%char.
Definition lbracket : ascii := "["%char.
Definition rbracket : ascii := "]"%char.

Fixpoint str_contains_char (c : ascii) (s : string) : bool :=
  match s with
  | EmptyString => false
  | String d s' => ascii_eqb c d || str_contains_char c s'
  end.

Fixpoint str_prefix (p s : string) : bool :=
  match p, s with
  | EmptyString, _ => true
  | String a p', String b s' => ascii_eqb a b && str_prefix p' s'
  | String _ _, EmptyString => false
  end.

(** [needle in haystack] on two strings. *)
Fixpoint str_contains (needle s : string) : bool :=
  str_prefix needle s
  || match s with
     | EmptyString => false
     | String _ s' => str_contains needle s'
     end.

(** [s[2:(len(s)-2)]]: empty when the string is shorter than four. *)
Definition slice_2_m2 (s : string) : string :=
  String.substring 2 (String.length s - 4) s.

(** [s.lstrip('{')] and [s.rstrip('}')]. *)
Fixpoint lstrip (c : ascii) (s : string) : string :=
  match s with
  | String d s' => if ascii_eqb c d then lstrip c s' else s
  | EmptyString => EmptyString
  end.

Fixpoint rstrip (c : ascii) (s : string) : string :=
  match s with
  | EmptyString => EmptyString
  | String d s' =>
      match rstrip c s' with
      | EmptyString => if ascii_eqb c d then EmptyString else String d EmptyString
      | r => String d r
      end
  end.

(** [s.replace(old, new)]: every non-overlapping occurrence, left to right.
    [replace_from] drops [skip] characters (the rest of an occurrence just
    replaced) before it looks for the next one. *)
Fixpoint replace_from (old new : string) (skip : nat) (s : string) : string :=
  match s with
  | EmptyString => EmptyString
  | String c s' =>
      match skip with
      | S k => replace_from old new k s'
      | O =>
          if str_prefix old s
          then new +:+ replace_from old new (String.length old - 1) s'
          else String c (replace_from old new 0 s')
      end
  end.

Fixpoint interleave (new s : string) : string :=
  match s with
  | EmptyString => new
  | String c s' => new +:+ String c (interleave new s')
  end.

Definition py_replace (s old new : string) : string :=
  match old with
  | EmptyString => interleave new s
  | String _ _ => replace_from old new 0 s
  end.

(** ** Operations on values *)

Fixpoint dict_get (k : string) (d : pydict) : option value :=
  match d with
  | [] => None
  | (k', v) :: d' => if String.eqb k k' then Some v else dict_get k d'
  end.

Fixpoint dict_set (k : string) (v : value) (d : pydict) : pydict :=
  match d with
  | [] => [(k, v)]
  | (k', v') :: d' =>
      if String.eqb k k' then (k', v) :: d' else (k', v') :: dict_set k v d'
  end.

Fixpoint dict_del (k : string) (d : pydict) : pydict :=
  match d with
  | [] => []
  | (k', v') :: d' =>
      if String.eqb k k' then d' else (k', v') :: dict_del k d'
  end.

Definition dict_has (k : string) (d : pydict) : bool :=
  match dict_get k d with Some _ => true | None => false end.

Definition type_name (v : value) : string :=
  match v with
  | VNone => "NoneType"
  | VBool _ => "bool"
  | VInt _ => "int"
  | VStr _ => "unicode"
  | VList _ => "list"
  | VDict _ => "dict"
  end.

Definition truthy (v : value) : bool :=
  match v with
  | VNone => false
  | VBool b => b
  | VInt z => negb (Z.eqb z 0)
  | VStr s => negb (String.eqb s "")
  | VList l => match l with [] => false | _ => true end
  | VDict d => match d with [] => false | _ => true end
  end.

Definition is_None (v : value) : bool :=
  match v with VNone => true | _ => false end.

Definition hashable (v : value) : bool :=
  match v with VList _ | VDict _ => false | _ => true end.

(** [a == b] on JSON values: [True == 1], lists element by element, dicts
    as maps. *)
Fixpoint py_eq (a b : value) {struct a} : bool :=
  match a, b with
  | VNone, VNone => true
  | VBool x, VBool y => Bool.eqb x y
  | VBool x, VInt y => Z.eqb (if x then 1 else 0) y
  | VInt x, VBool y => Z.eqb x (if y then 1 else 0)
  | VInt x, VInt y => Z.eqb x y
  | VStr x, VStr y => String.eqb x y
  | VList xs, VList ys =>
      (fix go (xs ys : list value) {struct xs} : bool :=
         match xs, ys with
         | [], [] => true
         | x :: xs', y :: ys' => py_eq x y && go xs' ys'
         | _, _ => false
         end) xs ys
  | VDict d1, VDict d2 =>
      Nat.eqb (List.length d1) (List.length d2)
      && (fix go (d : pydict) {struct d} : bool :=
            match d with
            | [] => true
            | (k, v) :: d' =>
                match dict_get k d2 with
                | Some v' => py_eq v v'
                | None => false
                end && go d'
            end) d1
  | _, _ => false
  end.

Definition int_index (v : value) : option Z :=
  match v with
  | VInt z => Some z
  | VBool b => Some (if b then 1 else 0)%Z
  | _ => None
  end.

(** A list or string index, counted from the end when negative. *)
Definition norm_index (n : nat) (i : Z) : option nat :=
  let j := (if i <? 0 then i + Z.of_nat n else i)%Z in
  if ((0 <=? j) && (j <? Z.of_nat n))%Z then Some (Z.to_nat j) else None.

Fixpoint list_set {A} (i : nat) (x : A) (l : list A) : list A :=
  match l, i with
  | [], _ => []
  | _ :: l', O => x :: l'
  | y :: l', S i' => y :: list_set i' x l'
  end.

Fixpoint list_del {A} (i : nat) (l : list A) : list A :=
  match l, i with
  | [], _ => []
  | _ :: l', O => l'
  | y :: l', S i' => y :: list_del i' l'
  end.

(** [obj[key]] *)
Definition py_getitem (obj key : value) : result value :=
  match obj with
  | VDict d =>
      match key with
      | VStr k =>
          match dict_get k d with
          | Some v => Ok v
          | None => Raise (KeyError key)
          end
      | _ => if hashable key then Raise (KeyError key)
             else Raise (TypeError "unhashable type")
      end
  | VList l =>
      match int_index key with
      | Some i =>
          match norm_index (List.length l) i with
          | Some n => match nth_error l n with
                      | Some v => Ok v
                      | None => Raise (IndexError "list index out of range")
                      end
          | None => Raise (IndexError "list index out of range")
          end
      | None => Raise (TypeError "list indices must be integers")
      end
  | VStr s =>
      match int_index key with
      | Some i =>
          match norm_index (String.length s) i with
          | Some n => match String.get n s with
                      | Some c => Ok (VStr (String c EmptyString))
                      | None => Raise (IndexError "string index out of range")
                      end
          | None => Raise (IndexError "string index out of range")
          end
      | None => Raise (TypeError "string indices must be integers")
      end
  | _ => Raise (TypeError "object has no attribute __getitem__")
  end.

Definition getitem_str (obj : value) (k : string) : result value :=
  py_getitem obj (VStr k).

(** [obj[key] = v]; the result is the object after the store. *)
Definition py_setitem (obj key v : value) : result value :=
  match obj with
  | VDict d =>
      match key with
      | VStr k => Ok (VDict (dict_set k v d))
      | _ => Raise (TypeError "dict key is not a string")
      end
  | VList l =>
      match int_index key with
      | Some i =>
          match norm_index (List.length l) i with
          | Some n => Ok (VList (list_set n v l))
          | None => Raise (IndexError "list assignment index out of range")
          end
      | None => Raise (TypeError "list indices must be integers")
      end
  | _ => Raise (TypeError "object does not support item assignment")
  end.

(** [del obj[key]] *)
Definition py_delitem (obj key : value) : result value :=
  match obj with
  | VDict d =>
      match key with
      | VStr k =>
          if dict_has k d then Ok (VDict (dict_del k d))
          else Raise (KeyError key)
      | _ => if hashable key then Raise (KeyError key)
             else Raise (TypeError "unhashable type")
      end
  | VList l =>
      match int_index key with
      | Some i =>
          match norm_index (List.length l) i with
          | Some n => Ok (VList (list_del n l))
          | None => Raise (IndexError "list assignment index out of range")
          end
      | None => Raise (TypeError "list indices must be integers")
      end
  | _ => Raise (TypeError "object does not support item deletion")
  end.

(** [x in c] *)
Definition py_in (x c : value) : result bool :=
  match c with
  | VDict d =>
      match x with
      | VStr k => Ok (dict_has k d)
      | _ => if hashable x then Ok false
             else Raise (TypeError "unhashable type")
      end
  | VList l => Ok (existsb (py_eq x) l)
  | VStr s =>
      match x with
      | VStr n => Ok (str_contains n s)
      | _ => Raise (TypeError "in <string> requires string as left operand")
      end
  | _ => Raise (TypeError "argument is not iterable")
  end.

(** [for x in c] *)
Definition py_iter (c : value) : result (list value) :=
  match c with
  | VList l => Ok l
  | VDict d => Ok (map (fun kv => VStr (fst kv)) d)
  | VStr s => Ok (map (fun ch => VStr (String ch EmptyString)) (list_ascii_of_string s))
  | _ => Raise (TypeError "object is not iterable")
  end.

Definition py_len (c : value) : result nat :=
  match c with
  | VList l => Ok (List.length l)
  | VDict d => Ok (List.length d)
  | VStr s => Ok (String.length s)
  | _ => Raise (TypeError "object has no len()")
  end.

(** [obj.copy()]: only a dict has the method (Python 2). *)
Definition py_copy (obj : value) : result value :=
  match obj with
  | VDict d => Ok (VDict d)
  | _ => Raise (AttributeError (type_name obj) "copy")
  end.

(** [obj.payload] and [obj.payload = v]: no type a value can have carries an
    attribute of that name, nor accepts a new attribute. *)
Definition py_getattr (obj : value) (attr : string) : result value :=
  Raise (AttributeError (type_name obj) attr).

Definition py_setattr (obj : value) (attr : string) (v : value) : result value :=
  Raise (AttributeError (type_name obj) attr).

(** ['literal' + v] *)
Definition py_concat (s : string) (v : value) : result string :=
  match v with
  | VStr t => Ok (s +:+ t)
  | _ => Raise (TypeError "cannot concatenate str and non-str objects")
  end.

(** [v == 'literal'] *)
Definition eq_str (v : value) (s : string) : bool := py_eq v (VStr s).

Fixpoint fold_result {S A : Type} (f : S -> A -> result S) (st : S)
    (l : list A) : result S :=
  match l with
  | [] => Ok st
  | x :: l' => let* st' := f st x in fold_result f st' l'
  end.

Fixpoint fold_M {S A : Type} (f : S -> A -> M S) (st : S) (l : list A) : M S :=
  match l with
  | [] => pure st
  | x :: l' => do st' <- f st x in fold_M f st' l'
  end.

(** A [for] loop whose body may [return]: the first iteration that returns
    ends the loop. *)
Fixpoint first_return {A B : Type} (f : A -> result (option B)) (l : list A)
    : result (option B) :=
  match l with
  | [] => Ok None
  | x :: l' =>
      match f x with
      | Raise e => Raise e
      | Ok (Some b) => Ok (Some b)
      | Ok None => first_return f l'
      end
  end.

(** ** [json.dumps]

    Default separators, [ensure_ascii]; a character is its code point. *)

Definition dquote : ascii := "034"%char.
Definition backslash : ascii := "092"%char.

Definition hex_digit (n : nat) : ascii :=
  match String.get n "0123456789abcdef" with
  | Some c => c
  | None => "0"%char
  end.

Definition escape_char (c : ascii) : string :=
  let n := nat_of_ascii c in
  let esc (d : ascii) := String backslash (String d EmptyString) in
  if ascii_eqb c dquote then esc dquote
  else if ascii_eqb c backslash then esc backslash
  else if Nat.eqb n 10 then esc "n"%char
  else if Nat.eqb n 13 then esc "r"%char
  else if Nat.eqb n 9 then esc "t"%char
  else if Nat.eqb n 8 then esc "b"%char
  else if Nat.eqb n 12 then esc "f"%char
  else if (n <? 32)%nat || (126 <? n)%nat
       then String backslash
              ("u00" +:+ String (hex_digit (n / 16))
                           (String (hex_digit (n mod 16)) EmptyString))
  else String c EmptyString.

Fixpoint escape_string (s : string) : string :=
  match s with
  | EmptyString => EmptyString
  | String c s' => escape_char c +:+ escape_string s'
  end.

Definition quoted (s : string) : string :=
  String dquote (escape_string s +:+ String dquote EmptyString).

Definition string_of_Z (z : Z) : string := NilZero.string_of_int (Z.to_int z).

Fixpoint join (sep : string) (l : list string) : string :=
  match l with
  | [] => EmptyString
  | [x] => x
  | x :: l' => x +:+ sep +:+ join sep l'
  end.

Fixpoint json_dumps (v : value) : string :=
  match v with
  | VNone => "null"
  | VBool true => "true"
  | VBool false => "false"
  | VInt z => string_of_Z z
  | VStr s => quoted s
  | VList l => "[" +:+ join ", " (map json_dumps l) +:+ "]"
  | VDict d =>
      "{" +:+ join ", " (map (fun kv => quoted (fst kv) +:+ ": " +:+ json_dumps (snd kv)) d)
          +:+ "}"
  end.

(** ** Regular expressions of [__resolvePathStr] *)

(** What may follow an opening pair: any characters other than a line break
    (the greedy dot-star group), then [close], then the end of the string or
    one final line break (the dollar anchor). *)
Fixpoint tail_match (close : string) (s : string) : bool :=
  String.eqb s close
  || String.eqb s (close +:+ String nl EmptyString)
  || match s with
     | EmptyString => false
     | String c s' => negb (ascii_eqb c nl) && tail_match close s'
     end.

(** [re.search(valueRegex, s)]: anchored, two opening braces, the group, two
    closing braces. *)
Definition valueRegex_search (s : string) : bool :=
  match s with
  | String c1 (String c2 rest) =>
      ascii_eqb c1 lbrace && ascii_eqb c2 lbrace && tail_match "}}" rest
  | _ => false
  end.

(** [re.search(arrayRegex, s)]: anchored, an opening brace and bracket, the
    group, a closing bracket and brace. *)
Definition arrayRegex_search (s : string) : bool :=
  match s with
  | String c1 (String c2 rest) =>
      ascii_eqb c1 lbrace && ascii_eqb c2 lbracket && tail_match "]}" rest
  | _ => false
  end.

(** The longest run of characters other than [}], with the [}] that ends
    it. *)
Fixpoint until_rbrace (s : string) : option string :=
  match s with
  | EmptyString => None
  | String c s' =>
      if ascii_eqb c rbrace then Some (String rbrace EmptyString)
      else match until_rbrace s' with
           | Some m => Some (String c m)
           | None => None
           end
  end.

(** One or more characters other than a closing brace, then a closing brace,
    at the start of [s]. *)
Definition template_at (s : string) : option string :=
  match s with
  | EmptyString => None
  | String c _ => if ascii_eqb c rbrace then None else until_rbrace s
  end.

(** [re.search(templateRegex, s).group(0)]: the leftmost opening brace that
    starts a match. *)
Fixpoint templateRegex_search (s : string) : option string :=
  match s with
  | EmptyString => None
  | String c s' =>
      if ascii_eqb c lbrace then
        match template_at s' with
        | Some m => Some (String lbrace m)
        | None => templateRegex_search s'
        end
      else templateRegex_search s'
  end.

(** ** Collaborators *)

(** [s3.Object(bucket, key).get()] *)
Definition s3_object_get (bucket key : value) : M value :=
  fun w =>
    match bucket, key with
    | VStr b, VStr k =>
        match s3_objects w !! (b, k) with
        | Some body => (Ok (VDict [("Body", VStr body)]), w)
        | None => (Raise (ClientError "NoSuchKey"), w)
        end
    | _, _ => (Raise (ClientError "ParamValidationError"), w)
    end.

(** [s3.put_object] called with the keyword arguments [params] *)
Definition s3_put_object (params : value) : M unit :=
  fun w =>
    match params with
    | VDict d =>
        match dict_get "Bucket" d, dict_get "Key" d, dict_get "Body" d with
        | Some (VStr b), Some (VStr k), Some (VStr body) =>
            (Ok tt, mkWorld (<[(b, k) := body]> (s3_objects w))
                            (uuid_source w) (uuid_drawn w) (utc_now w))
        | _, _, _ => (Raise (ClientError "ParamValidationError"), w)
        end
    | _ => (Raise (TypeError "argument after ** must be a mapping"), w)
    end.

(** [str(uuid.uuid4())] *)
Definition uuid4 : M string :=
  fun w => (Ok (uuid_source w (uuid_drawn w)),
            mkWorld (s3_objects w) (uuid_source w) (S (uuid_drawn w)) (utc_now w)).

(** [datetime.utcnow()] *)
Definition utcnow : M Z := fun w => (Ok (utc_now w), w).

(** ** Global names *)

Definition callable : Type := list value -> M value.
Definition namespace : Type := string -> option callable.

Definition load_global (G : namespace) (name : string) : M callable :=
  match G name with
  | Some f => pure f
  | None => raise (NameError name)
  end.

Definition call_global (G : namespace) (name : string) (args : list value)
    : M value :=
  do f <- load_global G name in f args.

(** [isinstance(x, T)] for a global name [T]; a type object stands for its
    instance test. *)
Definition isinstance (G : namespace) (x : value) (T : string) : M bool :=
  do t <- load_global G T in
  do b <- t [x] in
  pure (truthy b).

(** The module binds, at top level, [json], [re], [sys], [datetime], [date],
    [time], [uuid], [boto3], [jsonpath], [parse] and [message].  None of the
    names its methods look up through the namespace is among them, nor
    among the builtins: the methods of the class are attributes of
    [message], and [timedelta], [StringType], [ListType] and [TypeType] are
    not imported. *)
Definition module_globals : namespace := fun _ => None.

(** ** A path-query engine

    [jsonpath_ng] is a third-party library: the methods below take its two
    operations as parameters.  [JsonPath] is a small engine, for dotted
    paths from the root with an optional wildcard step, on which the methods
    can be evaluated. *)

Module JsonPath.

Inductive step : Type :=
| Field (name : string)
| Wild.

(** The pieces of [s] between dots; [acc] holds the piece being read. *)
Fixpoint split_dots (acc : string) (s : string) : list string :=
  match s with
  | EmptyString => [acc]
  | String c s' =>
      if ascii_eqb c "."%char then acc :: split_dots EmptyString s'
      else split_dots (acc +:+ String c EmptyString) s'
  end.

Definition well_formed_name (n : string) : bool :=
  negb (String.eqb n "")
  && negb (str_contains_char lbrace n) && negb (str_contains_char rbrace n)
  && negb (str_contains_char lbracket n) && negb (str_contains_char rbracket n)
  && negb (str_contains_char "$"%char n) && negb (str_contains_char " "%char n)
  && negb (str_contains_char nl n).

Fixpoint to_steps (pieces : list string) : option (list step) :=
  match pieces with
  | [] => Some []
  | p :: ps =>
      match to_steps ps with
      | None => None
      | Some r =>
          if String.eqb p "*" then Some (Wild :: r)
          else if well_formed_name p then Some (Field p :: r)
          else None
      end
  end.

Definition parse (q : string) : result (list step) :=
  match split_dots EmptyString q with
  | root :: pieces =>
      if String.eqb root "$" then
        match to_steps pieces with
        | Some steps => Ok steps
        | None => Raise (ParseError q)
        end
      else Raise (ParseError q)
  | [] => Raise (ParseError q)
  end.

Definition children (st : step) (v : value) : list value :=
  match st, v with
  | Field n, VDict d => match dict_get n d with Some x => [x] | None => [] end
  | Wild, VDict d => map snd d
  | Wild, VList l => l
  | _, _ => []
  end.

Fixpoint select (steps : list step) (vs : list value) : list value :=
  match steps with
  | [] => vs
  | st :: steps' => select steps' (flat_map (children st) vs)
  end.

(** [[m.value for m in parse(q).find(event)]] *)
Definition find (q : string) (event : value) : result (list value) :=
  let* steps := parse q in Ok (select steps [event]).

Fixpoint write (steps : list step) (new : value) (v : value) : value :=
  match steps with
  | [] => new
  | Field n :: steps' =>
      match v with
      | VDict d =>
          VDict (map (fun kv => if String.eqb (fst kv) n
                                then (fst kv, write steps' new (snd kv))
                                else kv) d)
      | _ => v
      end
  | Wild :: steps' =>
      match v with
      | VDict d => VDict (map (fun kv => (fst kv, write steps' new (snd kv))) d)
      | VList l => VList (map (write steps' new) l)
      | _ => v
      end
  end.

(** [parse(q).update(target, new)]: every node the path matches is
    replaced. *)
Definition update (q : string) (target new : value) : result value :=
  let* steps := parse q in Ok (write steps new target).

End JsonPath.

(** ** Class [message] *)

Section Message.

(** [[m.value for m in parse(q).find(event)]] and
    [parse(q).update(target, new)]; either may raise on a query the
    library cannot parse. *)
Variable jsonpath_find : string -> value -> result (list value).
Variable jsonpath_update : string -> value -> value -> result value.

Variable G : namespace.

(** *** [__getTaskNameFromExecutionHistory] *)

(** The first loop.  The subscript [eventsById['event']] is read before
    the store into its ['id'] entry; the store goes to the dict that
    [eventsById] holds under ['event']. *)
Definition build_eventsById (events : list value) : result value :=
  fold_result (fun eventsById event =>
           let* inner := py_getitem eventsById (VStr "event") in
           let* inner' := py_setitem inner (VStr "id") event in
           py_setitem eventsById (VStr "event") inner')
        (VDict []) events.

Definition scheduled_for (step arn : value) (type_tag details : string)
    : result bool :=
  let* ty := getitem_str step "type" in
  if eq_str ty type_tag then
    let* d := getitem_str step details in
    let* r := getitem_str d "resource" in
    Ok (py_eq r arn)
  else Ok false.

(** The condition of the [if] at lines 44 to 48. *)
Definition step_matches_arn (step arn : value) : result bool :=
  if truthy arn then
    let* lam := scheduled_for step arn "LambdaFunctionScheduled"
                "lambdaFunctionScheduledEventDetails" in
    if lam then Ok true
    else scheduled_for step arn "ActivityScheduled"
           "activityScheduledEventDetails"
  else Ok false.

Definition entered_name (event : value) : result value :=
  let* det := getitem_str event "stateEnteredEventDetails" in
  getitem_str det "name".

(** One iteration of the second loop: [Some name] when it returns. *)
Definition visit_step (eventsById arn step : value) : result (option value) :=
  let* m := step_matches_arn step arn in
  if m then
    let* pid := getitem_str step "previousEventId" in
    let* prev := py_getitem eventsById pid in
    let* name := entered_name prev in
    Ok (Some name)
  else
    let* ty := getitem_str step "type" in
    if eq_str ty "TaskStateEntered" then
      let* name := entered_name step in Ok (Some name)
    else Ok None.

Definition getTaskNameFromExecutionHistory (executionHistory arn : value)
    : result value :=
  let* events := getitem_str executionHistory "events" in
  let* evs := py_iter events in
  let* eventsById := build_eventsById evs in
  let* events' := getitem_str executionHistory "events" in
  let* steps := py_iter events' in
  let* found := first_return (visit_step eventsById arn) steps in
  match found with
  | Some name => Ok name
  | None =>
      let* msg := py_concat "No task found for " arn in
      Raise (LookupError msg)
  end.

(** *** [loadRemoteEvent] *)

Definition loadRemoteEvent (event : value) : M value :=
  do has <- lift (py_in (VStr "replace") event) in
  if has then
    do rep <- lift (getitem_str event "replace") in
    do bucket <- lift (getitem_str rep "Bucket") in
    do rep' <- lift (getitem_str event "replace") in
    do key <- lift (getitem_str rep' "Key") in
    do data <- s3_object_get bucket key in
    if negb (is_None data) then lift (getitem_str data "Body")
    else pure event
  else pure event.

(** *** Configuration of the task *)

Definition getConfig (event taskName : value) : result value :=
  let* hasWc := py_in (VStr "workflow_config") event in
  let* hasTask := (if hasWc then
                   let* wc := getitem_str event "workflow_config" in
                   py_in taskName wc
                 else Ok false) in
  if hasTask then
    let* wc := getitem_str event "workflow_config" in
    py_getitem wc taskName
  else Ok (VDict []).

Definition loadLocalConfig (event : value) : M value :=
  do f <- load_global G "_message__getConfig" in
  do meta <- lift (getitem_str event "cumulus_meta") in
  do task <- lift (getitem_str meta "task") in
  f [event; task].

Definition loadStepFunctionConfig (event context : value) : M value :=
  do meta <- lift (getitem_str event "cumulus_meta") in
  do hasArn <- lift (py_in (VStr "invokedFunctionArn") context) in
  do arn <- lift (getitem_str context
                    (if hasArn then "invokedFunctionArn" else "activityArn")) in
  do f <- load_global G "_message__getCurrentSfnTask" in
  do sm <- lift (getitem_str meta "state_machine") in
  do en <- lift (getitem_str meta "execution_name") in
  do taskName <- f [sm; en; arn] in
  if negb (is_None taskName)
  then call_global G "_message__getConfig" [event; taskName]
  else pure VNone.

Definition loadConfig (event context : value) : M value :=
  do meta <- lift (getitem_str event "cumulus_meta") in
  do source <- lift (getitem_str meta "message_source") in
  if is_None source
  then raise (LookupError "cumulus_meta requires a message_source")
  else if eq_str source "local"
  then call_global G "_message__loadLocalConfig" [event]
  else if eq_str source "sfn"
  then call_global G "_message__loadStepFunctionConfig" [event; context]
  else do msg <- lift (py_concat "Unknown event source: " source) in
       raise (LookupError msg).

(** *** Templates *)

Definition could_not_resolve {A} (str : string) : result A :=
  Raise (LookupError ("Could not resolve path " +:+ str)).

Definition resolvePathStr (event : value) (str : string) : result value :=
  let* single :=
    (if valueRegex_search str then
       let* matchData := jsonpath_find (slice_2_m2 str) event in
       match matchData with
       | first :: _ => Ok (Some first)
       | [] => Ok None
       end
     else Ok None) in
  match single with
  | Some v => Ok v
  | None =>
      let* several :=
        (if arrayRegex_search str then
           let* matchData := jsonpath_find (slice_2_m2 str) event in
           match matchData with
           | _ :: _ => Ok (Some (VList matchData))
           | [] => Ok None
           end
         else Ok None) in
      match several with
      | Some v => Ok v
      | None =>
          match templateRegex_search str with
          | Some group0 =>
              let* matchData :=
                jsonpath_find (rstrip rbrace (lstrip lbrace group0)) event in
              match matchData with
              | VStr text :: _ => Ok (VStr (py_replace str group0 text))
              | _ :: _ => Raise (TypeError "replace() argument 2 must be a string")
              | [] => could_not_resolve str
              end
          | None => could_not_resolve str
          end
      end
  end.

(** [config.keys()] *)
Definition py_keys (config : value) : result (list value) :=
  match config with
  | VDict d => Ok (map (fun kv => VStr (fst kv)) d)
  | _ => Raise (AttributeError (type_name config) "keys")
  end.

Definition range (n : nat) : list value :=
  map (fun i => VInt (Z.of_nat i)) (seq 0 n).

Definition resolveConfigObject (event config : value) : M value :=
  do isString <- isinstance G config "StringType" in
  if isString then call_global G "_message__resolvePathStr" [event; config]
  else
    do isList <- isinstance G config "ListType" in
    if isList then
      do n <- lift (py_len config) in
      fold_M (fun cfg i =>
                do f <- load_global G "_message__resolveConfigObject" in
                do item <- lift (py_getitem cfg i) in
                do resolved <- f [event; item] in
                lift (py_setitem cfg i resolved))
             config (range n)
    else
      do isDict <- (if negb (is_None config)
                    then isinstance G config "TypeType"
                    else pure false) in
      if isDict then
        do keys <- lift (py_keys config) in
        fold_M (fun res key =>
                  do f <- load_global G "_message__resolveConfigObject" in
                  do item <- lift (py_getitem config key) in
                  do resolved <- f [event; item] in
                  lift (py_setitem res key resolved))
               (VDict []) keys
      else pure config.

Definition resolveConfigTemplates (event config : value) : M value :=
  do taskConfig <- lift (py_copy config) in
  do taskConfig' <- lift (py_delitem taskConfig (VStr "cumulus_message")) in
  call_global G "__" [event; taskConfig'].

(** *** Payload determination *)

Definition resolveInput (event config : value) : M value :=
  do hasMessage <- lift (py_in (VStr "cumulus_message") config) in
  do hasInput <- (if hasMessage then
                    do cm <- lift (getitem_str config "cumulus_message") in
                    lift (py_in (VStr "input") cm)
                  else pure false) in
  if hasInput then
    do cm <- lift (getitem_str config "cumulus_message") in
    do inputPath <- lift (getitem_str cm "input") in
    call_global G "_message__resolvePathStr" [event; inputPath]
  else lift (py_getattr event "payload").

Definition loadNestedEvent (event context : value) : M value :=
  do config <- call_global G "_message__loadConfig" [event; context] in
  do finalConfig <-
    call_global G "_message__resolveConfigTemplates" [event; config] in
  do finalPayload <- call_global G "_message__resolveInput" [event; config] in
  do messageConfig <- lift (getitem_str config "cumulus_message") in
  pure (VDict [("input", finalPayload);
               ("config", finalConfig);
               ("messageConfig", messageConfig)]).

(** *** Output message creation *)

(** [destPath[2:(len(destPath)-2)]] *)
Definition dest_slice (destPath : value) : result string :=
  match destPath with
  | VStr d => Ok (slice_2_m2 d)
  | _ => Raise (TypeError "destination is not a string")
  end.

Definition assignOutputs (nestedResponse event messageConfig : value)
    : M value :=
  do result0 <- lift (py_copy event) in
  do hasOutputs <- (if negb (is_None messageConfig)
                    then lift (py_in (VStr "outputs") messageConfig)
                    else pure false) in
  if hasOutputs then
    do outputs <- lift (getitem_str messageConfig "outputs") in
    do result1 <- lift (py_setattr result0 "payload" (VDict [])) in
    do outs <- lift (py_iter outputs) in
    fold_M (fun res output =>
              do sourcePath <- lift (getitem_str output "source") in
              do destPath <- lift (getitem_str output "destination") in
              do destJsonPath <- lift (dest_slice destPath) in
              do v <- call_global G "_message__resolvePathStr"
                        [nestedResponse; sourcePath] in
              lift (jsonpath_update destJsonPath res v))
           result1 outs
  else lift (py_setitem result0 (VStr "payload") nestedResponse).

Definition MAX_NON_S3_PAYLOAD_SIZE : Z := 10000.

Definition storeRemoteResponse (event : value) : M value :=
  let jsonData := json_dumps event in
  let roughDataSize :=
    if negb (is_None event) then Z.of_nat (String.length jsonData) else 0%Z in
  if (roughDataSize <? MAX_NON_S3_PAYLOAD_SIZE)%Z then pure event
  else
    (* The creation of the S3 client is taken to succeed. *)
    do im <- lift (getitem_str event "ingest_meta") in
    do bucket <- lift (getitem_str im "message_bucket") in
    do u <- uuid4 in
    let s3Location := VDict [("Bucket", bucket); ("Key", VStr ("events/" +:+ u))] in
    do copied <- lift (py_copy s3Location) in
    do now <- utcnow in
    do week <- call_global G "timedelta" [VInt 7] in
    (* [dict.update] returns [None]. *)
    let s3Params := VNone in
    do stored <- s3_put_object s3Params in
    do cm <- lift (getitem_str event "cumulus_meta") in
    pure (VDict [("cumulus_meta", cm); ("replace", s3Location)]).

Definition createNextEvent (nestedResponse event messageConfig : value)
    : M value :=
  do result0 <-
    call_global G "_message__assignOutputs"
      [nestedResponse; event; messageConfig] in
  do result1 <- lift (py_setitem result0 (VStr "exception") (VStr "None")) in
  do result2 <- lift (py_delitem result1 (VStr "replace")) in
  call_global G "storeRemoteResponse" [result2].

End Message.

(** ** Step Functions lookups *)

(** [v.replace(old, new)] *)
Definition py_str_replace (v : value) (old new : string) : result value :=
  match v with
  | VStr s => Ok (VStr (py_replace s old new))
  | _ => Raise (AttributeError (type_name v) "replace")
  end.

(** [sep.join] called with the arguments [args]: the method takes one
    argument, a sequence of texts. *)
Definition py_join_call (sep : string) (args : list value) : result value :=
  match args with
  | [VList items] =>
      let* texts :=
        fold_result (fun acc item =>
                       match item with
                       | VStr t => Ok (acc ++ [t])
                       | _ => Raise (TypeError "sequence item: expected string")
                       end) [] items in
      Ok (VStr (join sep texts))
  | [_] => Raise (TypeError "can only join an iterable")
  | _ => Raise (TypeError "join() takes exactly one argument")
  end.

Definition getSfnExecutionArnByName (stateMachineArn executionName : value)
    : result value :=
  let* replaced :=
    py_str_replace stateMachineArn ":stateMachine:" ":execution:" in
  py_join_call ":" [replaced; executionName].

(** [client] is a global name here (the client made on the line before is
    bound to [sfn]); it stands for its method [get_execution_history],
    called with the execution ARN, [maxResults] and [reverseOrder].  The
    creation of the Step Functions client is taken to succeed.  The function
    has no [return]. *)
Definition getCurrentSfnTask (G : namespace)
    (stateMachineArn executionName arn : value) : M value :=
  do executionArn <-
    call_global G "_message__getSfnExecutionArnByName"
      [stateMachineArn; executionName] in
  do client <- load_global G "client" in
  do executionHistory <- client [executionArn; VInt 40; VBool true] in
  do found <-
    call_global G "_message__getTaskNameFromExecutionHistory"
      [executionHistory; arn] in
  pure VNone.

(** A method of the class as a callable of one, two or three arguments. *)
Definition method1 (f : value -> M value) : callable :=
  fun args =>
    match args with
    | [a] => f a
    | _ => raise (TypeError "wrong number of arguments")
    end.

Definition method2 (f : value -> value -> M value) : callable :=
  fun args =>
    match args with
    | [a; b] => f a b
    | _ => raise (TypeError "wrong number of arguments")
    end.

Definition method3 (f : value -> value -> value -> M value) : callable :=
  fun args =>
    match args with
    | [a; b; c] => f a b c
    | _ => raise (TypeError "wrong number of arguments")
    end.

(** ** The process boundary *)

(** What a handler wrote to the standard error. *)
Inductive diagnostic : Type :=
| LookupReport (e : exn)
| UnexpectedReport (e : exn).

(** An exception nothing catches: the interpreter prints the traceback and
    the exit status is 1. *)
Inductive uncaught : Type :=
| UncaughtExn (e : exn)
| UncaughtValueError (msg : string).

Inductive outcome : Type :=
| Finished (stdout : string) (stderr : option diagnostic) (status : Z)
| Traceback (stdout : string) (u : uncaught).

Definition exit_status (o : outcome) : Z :=
  match o with
  | Finished _ _ status => status
  | Traceback _ _ => 1%Z
  end.

Definition written (o : outcome) : string :=
  match o with
  | Finished out _ _ => out
  | Traceback out _ => out
  end.

(** *** [src/__main__.py] *)

Section Adapter.

(** [json.loads]; the three methods of the transformer, an instance of the
    class [message_adapter], which the script imports from a module outside
    these sources. *)
Variable json_loads : string -> result value.
Variable transformer_loadRemoteEvent : value -> M value.
Variable transformer_loadNestedEvent : value -> value -> M value.
Variable transformer_createNextEvent : value -> value -> value -> M value.

(** The dispatch on the function name: [None] when no branch binds
    [result]. *)
Definition adapter_call (functionName : string) (allInput event : value)
    : M (option value) :=
  if String.eqb functionName "loadRemoteEvent" then
    do result <- transformer_loadRemoteEvent event in pure (Some result)
  else if String.eqb functionName "loadNestedEvent" then
    do context <- lift (getitem_str allInput "context") in
    do result <- transformer_loadNestedEvent event context in
    pure (Some result)
  else if String.eqb functionName "createNextEvent" then
    do handlerResponse <- lift (getitem_str allInput "handler_response") in
    do given <- lift (py_in (VStr "message_config") allInput) in
    do messageConfig <- (if given
                         then lift (getitem_str allInput "message_config")
                         else pure VNone) in
    do result <-
      transformer_createNextEvent handlerResponse event messageConfig in
    pure (Some result)
  else pure None.

(** The two [except] clauses; the exit code is still 1. *)
Definition adapter_handle (e : exn) : outcome :=
  if is_LookupError e then Finished EmptyString (Some (LookupReport e)) 1
  else Finished EmptyString (Some (UnexpectedReport e)) 1.

(** The script, given the command line and the line read from the standard
    input. *)
Definition adapter_main (argv : list string) (line : string) (w : world)
    : outcome :=
  match nth_error argv 1 with
  | None => Traceback EmptyString (UncaughtExn (IndexError "list index out of range"))
  | Some functionName =>
      match json_loads line with
      | Raise e => Traceback EmptyString (UncaughtExn e)
      | Ok allInput =>
          match getitem_str allInput "event" with
          | Raise e => Traceback EmptyString (UncaughtExn e)
          | Ok event =>
              match adapter_call functionName allInput event w with
              | (Raise e, _) => adapter_handle e
              | (Ok None, _) => adapter_handle (NameError "result")
              | (Ok (Some result), _) =>
                  if is_None result then Finished EmptyString None 1
                  else
                    match py_len result with
                    | Raise e => adapter_handle e
                    | Ok n =>
                        if (0 <? n)%nat
                        then Finished (json_dumps result) None 0
                        else Finished EmptyString None 1
                    end
              end
          end
      end
  end.

End Adapter.

(** *** The script at the end of [message.py] *)

Section Script.

Variable json_loads : string -> result value.
Variable G : namespace.

(** [json.loads(argv[i])]: [argv] is a global name here ([sys.argv] is not
    imported under it); it stands for its subscript. *)
Definition loads_argv (i : Z) : M value :=
  do argv <- load_global G "argv" in
  do text <- argv [VInt i] in
  match text with
  | VStr s => lift (json_loads s)
  | _ => raise (TypeError "expected string or buffer")
  end.

(** The three branches of the [try] block, up to [result]. *)
Definition script_call (functionName : string) : M value :=
  if String.eqb functionName "loadNestedEvent" then
    do event <- loads_argv 2 in
    do context <- loads_argv 3 in
    call_global G "loadNestedEvent" [event; context]
  else if String.eqb functionName "createNextEvent" then
    do nestedResponse <- loads_argv 2 in
    do event <- loads_argv 3 in
    do messageConfig <- loads_argv 4 in
    call_global G "createNextEvent" [nestedResponse; event; messageConfig]
  else if String.eqb functionName "loadRemoteEvent" then
    do event <- loads_argv 2 in
    call_global G "loadRemoteEvent" [event]
  else pure VNone.

(** Both [except] clauses call [sys.stderr], a file object: the call raises
    [TypeError], which nothing catches. *)
Definition script_handler (out : string) : outcome :=
  Traceback out (UncaughtExn (TypeError "file object is not callable")).

(** [sys.exit(0)] is inside the [try] block: the bare [except] clause
    catches the [SystemExit] it raises. *)
Definition script_main (argv : list string) (w : world) : outcome :=
  match argv with
  | scriptName :: functionName :: _ =>
      match script_call functionName w with
      | (Raise e, _) => script_handler EmptyString
      | (Ok result, _) =>
          if is_None result then Finished EmptyString None 1
          else
            match py_len result with
            | Raise e => script_handler EmptyString
            | Ok n =>
                if (0 <? n)%nat then script_handler (json_dumps result)
                else Finished EmptyString None 1
            end
      end
  | _ => Traceback EmptyString (UncaughtValueError "need more than 1 value to unpack")
  end.

End Script.

(** ** Sample inputs *)

Definition world0 : world :=
  mkWorld ∅ (fun _ => "00000000-0000-4000-8000-000000000000") 0 0.

(** An execution history, most recent event first: an activity scheduled
    for ARN [X], whose previous event entered the task state [Validate]. *)
Definition validate_history : value :=
  VDict [("events", VList [
    VDict [("id", VInt 2); ("type", VStr "ActivityScheduled");
           ("previousEventId", VInt 1);
           ("activityScheduledEventDetails", VDict [("resource", VStr "X")])];
    VDict [("id", VInt 1); ("type", VStr "TaskStateEntered");
           ("previousEventId", VInt 0);
           ("stateEnteredEventDetails", VDict [("name", VStr "Validate")])]])].

Definition granules_message : value :=
  VDict [("cumulus_meta", VDict [("message_source", VStr "local");
                                 ("task", VStr "discover")]);
         ("payload", VDict [("granules", VDict [("g1", VInt 1); ("g2", VInt 2)]);
                            ("owner", VStr "ops")])].

Definition cloudwatch_message : value :=
  VDict [("cumulus_meta", VDict [("message_source", VStr "cloudwatch")]);
         ("payload", VDict [])].

Definition replaced_message : value :=
  VDict [("cumulus_meta", VDict [("message_source", VStr "local")]);
         ("replace", VDict [("Bucket", VStr "b"); ("Key", VStr "events/1")])].

Definition colliding_outputs : value :=
  VDict [("outputs", VList [
    VDict [("source", VStr "{{$.first}}"); ("destination", VStr "{{$.payload}}")];
    VDict [("source", VStr "{{$.second}}"); ("destination", VStr "{{$.payload}}")]])].

Definition two_results : value :=
  VDict [("first", VInt 1); ("second", VInt 2)].

Fixpoint filler (n : nat) : string :=
  match n with
  | O => EmptyString
  | S n' => String "a"%char (filler n')
  end.

(** The payload length at which [sized_message] serializes to 10000
    characters. *)
Definition payload_at_limit : nat := Z.to_nat 9904.

(** A message around a payload of [n] characters. *)
Definition sized_message (n : nat) : value :=
  VDict [("cumulus_meta", VDict [("execution_name", VStr "e")]);
         ("ingest_meta", VDict [("message_bucket", VStr "b")]);
         ("payload", VStr (filler n))].

(** A store that holds the object [replaced_message] points to. *)
Definition stored_body : string := "{}".

Definition world_with_object : world :=
  mkWorld {[ ("b", "events/1") := stored_body ]}
          (fun _ => "00000000-0000-4000-8000-000000000000") 0 0.

Definition discover_config : value :=
  VDict [("cumulus_message",
          VDict [("input", VStr "{{$.payload.granules}}")]);
         ("collection", VStr "{$.payload.owner}")].

Definition workflow_entries : pydict := [("discover", discover_config)].

Definition configured_fields : pydict :=
  [("cumulus_meta", VDict [("message_source", VStr "local");
                           ("task", VStr "discover")]);
   ("workflow_config", VDict workflow_entries);
   ("payload", VDict [("granules", VDict [("g1", VInt 1)]);
                      ("owner", VStr "ops")])].

Definition configured_message : value := VDict configured_fields.

(** Namespaces in which some of the names are bound to the methods. *)
Definition bind (name : string) (f : callable) (G : namespace) : namespace :=
  fun n => if String.eqb n name then Some f else G n.

Definition assign_bound : namespace :=
  bind "_message__assignOutputs"
       (method3 (assignOutputs JsonPath.update module_globals))
       module_globals.

Definition arn_helper_bound : namespace :=
  bind "_message__getSfnExecutionArnByName"
       (method2 (fun a b => lift (getSfnExecutionArnByName a b)))
       module_globals.

(** Stand-ins under which the Step Functions lookup runs to its end. *)
Definition sfn_stubs : namespace :=
  bind "_message__getSfnExecutionArnByName" (fun _ => pure (VStr "arn:execution"))
    (bind "client" (fun _ => pure validate_history)
       (bind "_message__getTaskNameFromExecutionHistory"
          (fun _ => pure (VStr "Validate")) module_globals)).

Definition sfn_task_bound : namespace :=
  bind "_message__getCurrentSfnTask" (method3 (getCurrentSfnTask sfn_stubs))
    module_globals.

Definition sfn_message : value :=
  VDict [("cumulus_meta", VDict [("message_source", VStr "sfn");
                                 ("state_machine", VStr "arn:aws:states:us-east-1:1:stateMachine:m");
                                 ("execution_name", VStr "e1")])].

Definition activity_context : value := VDict [("activityArn", VStr "X")].

(** A reader of the one line the adapter script is given in the examples,
    and transformer methods taken from the class. *)
Definition sample_loads (allInput : value) (line : string) : result value :=
  if String.eqb line "input" then Ok allInput
  else Raise (ParseError line).


(** * Properties *)

(** ** Strings and regular expressions *)

#[local] Arguments String.append !_ _ : simpl nomatch.

Lemma ascii_eqb_refl (c : ascii) : ascii_eqb c c = true.
Proof. apply Ascii.eqb_refl. Qed.

Lemma ascii_eqb_neq (c d : ascii) : c <> d -> ascii_eqb c d = false.
Proof. intros H. now apply Ascii.eqb_neq. Qed.

Lemma contains_char_cons (c d : ascii) (s : string) :
  str_contains_char c (String d s) = false ->
  ascii_eqb c d = false /\ str_contains_char c s = false.
Proof. simpl. intros H. now apply orb_false_iff in H. Qed.

Lemma append_assoc (a b c : string) : (a +:+ b) +:+ c = a +:+ (b +:+ c).
Proof. induction a as [|x a IH]; simpl; [reflexivity | now rewrite IH]. Qed.

Lemma append_length (a b : string) :
  String.length (a +:+ b) = (String.length a + String.length b)%nat.
Proof. induction a as [|x a IH]; simpl; [reflexivity | now rewrite IH]. Qed.

Lemma substring_0_append (a b : string) :
  String.substring 0 (String.length a) (a +:+ b) = a.
Proof.
  induction a as [|x a IH]; simpl.
  - now destruct b.
  - now rewrite IH.
Qed.


(** The anchored regular expressions on a template written with its
    delimiters. *)
Lemma tail_match_append (close path : string) :
  str_contains_char nl path = false ->
  tail_match close (path +:+ close) = true.
Proof.
  induction path as [|c path IH]; intros Hnl.
  - simpl. destruct close as [|a close]; [reflexivity|].
    simpl. now rewrite Ascii.eqb_refl, String.eqb_refl.
  - apply contains_char_cons in Hnl as [Hc Hrest].
    change (String c path +:+ close) with (String c (path +:+ close)).
    cbn [tail_match]. rewrite (IH Hrest).
    unfold ascii_eqb in *. rewrite Ascii.eqb_sym, Hc. simpl.
    now rewrite !orb_true_r.
Qed.

Lemma arrayRegex_on_template (path : string) :
  str_contains_char nl path = false ->
  arrayRegex_search ("{[" +:+ path +:+ "]}") = true.
Proof.
  intros Hnl. cbn -[tail_match]. now apply tail_match_append.
Qed.

Lemma valueRegex_on_array_template (rest : string) :
  valueRegex_search ("{[" +:+ rest) = false.
Proof. reflexivity. Qed.

Lemma slice_of_delimited (p : string) (x1 x2 y1 y2 : ascii) :
  slice_2_m2 (String x1 (String x2 (p +:+ String y1 (String y2 EmptyString)))) = p.
Proof.
  unfold slice_2_m2. cbn [String.length].
  rewrite append_length. cbn [String.length].
  replace (S (S (String.length p + 2)) - 4)%nat with (String.length p) by lia.
  cbn [String.substring]. apply substring_0_append.
Qed.

Lemma contains_char_append (c : ascii) (a b : string) :
  str_contains_char c (a +:+ b) = str_contains_char c a || str_contains_char c b.
Proof.
  induction a as [|x a IH]; simpl; [reflexivity|].
  now rewrite IH, orb_assoc.
Qed.

Lemma until_rbrace_append (p post : string) :
  str_contains_char rbrace p = false ->
  until_rbrace (p +:+ String rbrace post) = Some (p +:+ String rbrace EmptyString).
Proof.
  induction p as [|c p IH]; intros Hp; simpl.
  - reflexivity.
  - apply contains_char_cons in Hp as [Hc Hrest].
    unfold ascii_eqb in *. rewrite Ascii.eqb_sym, Hc.
    now rewrite (IH Hrest).
Qed.

Lemma template_at_append (p post : string) :
  p <> EmptyString ->
  str_contains_char rbrace p = false ->
  template_at (p +:+ String rbrace post) = Some (p +:+ String rbrace EmptyString).
Proof.
  intros Hne Hp. destruct p as [|c p]; [congruence|].
  pose proof (until_rbrace_append (String c p) post Hp) as Hu.
  apply contains_char_cons in Hp as [Hc _].
  unfold template_at. simpl String.append at 1.
  unfold ascii_eqb in *. rewrite Ascii.eqb_sym, Hc. exact Hu.
Qed.

Lemma templateRegex_skip (pre s : string) :
  str_contains_char lbrace pre = false ->
  templateRegex_search (pre +:+ s) = templateRegex_search s.
Proof.
  induction pre as [|c pre IH]; intros Hpre; simpl; [reflexivity|].
  apply contains_char_cons in Hpre as [Hc Hrest].
  unfold ascii_eqb in *. rewrite Ascii.eqb_sym, Hc. now apply IH.
Qed.

(** The leftmost template of a string: nothing before it opens a brace, and
    its text holds no closing brace. *)
Lemma templateRegex_on_embedded (pre p post : string) :
  str_contains_char lbrace pre = false ->
  p <> EmptyString ->
  str_contains_char rbrace p = false ->
  templateRegex_search (pre +:+ String lbrace (p +:+ String rbrace post))
  = Some (String lbrace (p +:+ String rbrace EmptyString)).
Proof.
  intros Hpre Hne Hp. rewrite (templateRegex_skip _ _ Hpre).
  cbn [templateRegex_search]. rewrite ascii_eqb_refl.
  now rewrite (template_at_append p post Hne Hp).
Qed.

Lemma rstrip_without (c : ascii) (s : string) :
  str_contains_char c s = false -> rstrip c s = s.
Proof.
  induction s as [|d s IH]; intros Hs; [reflexivity|].
  apply contains_char_cons in Hs as [Hd Hrest].
  cbn [rstrip]. rewrite (IH Hrest), Hd. now destruct s.
Qed.

Lemma rstrip_append_same (c : ascii) (s : string) :
  rstrip c (s +:+ String c EmptyString) = rstrip c s.
Proof.
  induction s as [|d s IH]; simpl.
  - now rewrite ascii_eqb_refl.
  - now rewrite IH.
Qed.

(** The query text taken from a template [{p}] is [p]. *)
Lemma strip_template (p : string) :
  str_contains_char lbrace p = false ->
  str_contains_char rbrace p = false ->
  p <> EmptyString ->
  rstrip rbrace (lstrip lbrace (String lbrace (p +:+ String rbrace EmptyString))) = p.
Proof.
  intros Hl Hr Hne. cbn [lstrip]. rewrite ascii_eqb_refl.
  destruct p as [|c p]; [congruence|].
  pose proof Hl as Hl'. apply contains_char_cons in Hl' as [Hc _].
  simpl String.append. cbn [lstrip]. rewrite Hc.
  change (String c (p +:+ String rbrace EmptyString))
    with (String c p +:+ String rbrace EmptyString).
  rewrite rstrip_append_same. now apply rstrip_without.
Qed.




Lemma str_prefix_refl (n : string) : str_prefix n n = true.
Proof.
  induction n as [|c n IH]; simpl; [reflexivity|].
  now rewrite ascii_eqb_refl, IH.
Qed.

Lemma str_contains_suffix (n p : string) : str_contains n (p +:+ n) = true.
Proof.
  induction p as [|c p IH].
  - simpl. destruct n as [|d n]; [reflexivity|].
    cbn [str_contains]. now rewrite str_prefix_refl.
  - change (String c p +:+ n) with (String c (p +:+ n)).
    cbn [str_contains]. rewrite IH. apply orb_true_r.
Qed.

(** ** Template resolution *)

Section Templates.

Variable jsonpath_find : string -> value -> result (list value).

(** What the array form does once its anchored expression has matched. *)
Lemma resolve_array_matched (event : value) (str : string) (m : value)
    (ms : list value) :
  valueRegex_search str = false ->
  arrayRegex_search str = true ->
  jsonpath_find (slice_2_m2 str) event = Ok (m :: ms) ->
  resolvePathStr jsonpath_find event str = Ok (VList (m :: ms)).
Proof.
  intros Hv Ha Hfind. unfold resolvePathStr.
  rewrite Hv, Ha, Hfind. reflexivity.
Qed.

(** The embedded form never yields a sequence. *)
Lemma resolve_embedded_not_list (event : value) (str : string)
    (items : list value) :
  match templateRegex_search str with
  | Some group0 =>
      let* matchData :=
        jsonpath_find (rstrip rbrace (lstrip lbrace group0)) event in
      match matchData with
      | VStr text :: _ => Ok (VStr (py_replace str group0 text))
      | _ :: _ => Raise (TypeError "replace() argument 2 must be a string")
      | [] => could_not_resolve str
      end
  | None => could_not_resolve str
  end <> Ok (VList items).
Proof.
  destruct (templateRegex_search str) as [g|]; [|discriminate].
  unfold bind_result.
  destruct (jsonpath_find _ event) as [[|[] ?]|]; discriminate.
Qed.

(** With at least one match, the array form returns all the matched values,
    in the order the query gives them (for a path without a line break). *)
Lemma resolve_array_template_matches (event : value) (path : string)
    (m : value) (ms : list value) :
  str_contains_char nl path = false ->
  jsonpath_find path event = Ok (m :: ms) ->
  resolvePathStr jsonpath_find event ("{[" +:+ path +:+ "]}")
  = Ok (VList (m :: ms)).
Proof.
  intros Hnl Hfind.
  apply resolve_array_matched.
  - reflexivity.
  - now apply arrayRegex_on_template.
  - change ("{[" +:+ path +:+ "]}")
      with (String lbrace (String lbracket
              (path +:+ String rbracket (String rbrace EmptyString)))).
    now rewrite slice_of_delimited.
Qed.

(** With no match, the array form returns nothing: the call goes on into the
    embedded form, and no sequence, empty or not, comes back, whatever the
    query engine. *)
Lemma resolve_array_template_unmatched (event : value) (path : string)
    (items : list value) :
  str_contains_char nl path = false ->
  jsonpath_find path event = Ok [] ->
  resolvePathStr jsonpath_find event ("{[" +:+ path +:+ "]}")
  <> Ok (VList items).
Proof.
  intros Hnl Hfind.
  pose proof (resolve_embedded_not_list event ("{[" +:+ path +:+ "]}") items)
    as Hnot.
  unfold resolvePathStr.
  change (valueRegex_search ("{[" +:+ path +:+ "]}")) with false.
  rewrite (arrayRegex_on_template path Hnl).
  change (slice_2_m2 ("{[" +:+ path +:+ "]}"))
    with (slice_2_m2 (String lbrace (String lbracket
            (path +:+ String rbracket (String rbrace EmptyString))))).
  rewrite slice_of_delimited, Hfind.
  exact Hnot.
Qed.


End Templates.

(** The array form on a wildcard query with two matches. *)
Lemma resolve_array_template_sample :
  resolvePathStr JsonPath.find granules_message "{[$.payload.granules.*]}"
  = Ok (VList [VInt 1; VInt 2]).
Proof.
  exact (resolve_array_template_matches JsonPath.find granules_message
           "$.payload.granules.*" (VInt 1) [VInt 2] eq_refl eq_refl).
Qed.

(** C2 fails on the code in its second half.  On a template whose query
    matches no node, [__resolvePathStr] does not return the empty sequence:
    the array rule returns only when there is a match, and the call falls
    into the embedded rule, which takes the whole template for an embedded
    one and hands the text between the braces, brackets included, to the
    path parser; the call ends in the parser's error. *)
Theorem resolve_array_template_no_match :
  JsonPath.find "$.payload.nothing" granules_message = Ok []
  /\ resolvePathStr JsonPath.find granules_message "{[$.payload.nothing]}"
     = Raise (ParseError "[$.payload.nothing]").
Proof. split; reflexivity. Qed.



(** A first match that is not a text is not coerced: the call raises. *)
Lemma resolve_embedded_number_raises :
  resolvePathStr JsonPath.find granules_message "n={$.payload.granules.g1}"
  = Raise (TypeError "replace() argument 2 must be a string").
Proof. reflexivity. Qed.

(** ** Execution history *)

(** The first loop reads [eventsById['event']] from a dict that is empty:
    one delivered event is enough for it to raise. *)
Lemma build_eventsById_raises (event : value) (events : list value) :
  build_eventsById (event :: events) = Raise (KeyError (VStr "event")).
Proof. reflexivity. Qed.

(** X5.  Every history that delivers at least one event makes
    [__getTaskNameFromExecutionHistory] raise [KeyError] while it builds
    the lookup table, whatever the ARN. *)
Lemma history_lookup_never_built (executionHistory arn event : value)
    (events : list value) :
  getitem_str executionHistory "events" = Ok (VList (event :: events)) ->
  getTaskNameFromExecutionHistory executionHistory arn
  = Raise (KeyError (VStr "event")).
Proof.
  intros H. unfold getTaskNameFromExecutionHistory. rewrite H. reflexivity.
Qed.

(** Only an empty window gets past the first loop, to the not-found error. *)
Lemma empty_history_not_found (arn : string) :
  getTaskNameFromExecutionHistory (VDict [("events", VList [])]) (VStr arn)
  = Raise (LookupError ("No task found for " +:+ arn)).
Proof. reflexivity. Qed.

(** C1 fails on the code.  On the history of the specification's scenario
    (an activity scheduled for ARN [X], whose previous event entered the
    task state [Validate]) the call raises [KeyError] while it builds the
    lookup table, before any event is examined; [Validate] is not
    returned. *)
Theorem getTaskName_validate_history :
  getTaskNameFromExecutionHistory validate_history (VStr "X")
  = Raise (KeyError (VStr "event")).
Proof. reflexivity. Qed.

(** ** Remote events *)

(** C9.  A message without [replace] is returned as it is, the world left
    alone; dereferencing the result again changes nothing. *)
Theorem loadRemoteEvent_without_replace (message : value) (w : world) :
  py_in (VStr "replace") message = Ok false ->
  loadRemoteEvent message w = (Ok message, w)
  /\ (do once <- loadRemoteEvent message in loadRemoteEvent once) w
     = loadRemoteEvent message w.
Proof.
  intros H.
  assert (E : loadRemoteEvent message w = (Ok message, w)).
  { unfold loadRemoteEvent, bind_M, lift. rewrite H. reflexivity. }
  split; [exact E|].
  unfold bind_M at 1. rewrite E. exact E.
Qed.

Lemma loadRemoteEvent_without_replace_witness :
  loadRemoteEvent granules_message world0 = (Ok granules_message, world0)
  /\ (do once <- loadRemoteEvent granules_message in loadRemoteEvent once) world0
     = loadRemoteEvent granules_message world0.
Proof.
  exact (loadRemoteEvent_without_replace granules_message world0 eq_refl).
Defined.

(** X13.  With [replace], the stored body comes back as the text it is. *)
Lemma loadRemoteEvent_with_replace (d : pydict) (bucket key body : string)
    (w : world) :
  dict_get "replace" d = Some (VDict [("Bucket", VStr bucket); ("Key", VStr key)]) ->
  s3_objects w !! (bucket, key) = Some body ->
  loadRemoteEvent (VDict d) w = (Ok (VStr body), w).
Proof.
  intros Hd Hs. unfold loadRemoteEvent, bind_M, lift, getitem_str. simpl.
  unfold dict_has. rewrite Hd. simpl. rewrite Hs. reflexivity.
Qed.

(** ** Configuration of the task *)

(** C8, amended.  When [cumulus_meta.message_source] is a text other than
    [local] and [sfn], [__loadConfig] raises [LookupError] with the message
    [Unknown event source: ] followed by that text; when it is null,
    [__loadConfig] raises the [LookupError] that a source is required, which
    names no source.  Both hold whatever the global names are bound to. *)
Theorem loadConfig_other_source (G : namespace) (event context meta source : value)
    (w : world) :
  getitem_str event "cumulus_meta" = Ok meta ->
  getitem_str meta "message_source" = Ok source ->
  source = VNone
  \/ (exists text, source = VStr text /\ text <> "local" /\ text <> "sfn") ->
  exists msg,
    loadConfig G event context w = (Raise (LookupError msg), w)
    /\ is_LookupError (LookupError msg) = true
    /\ match source with
       | VStr text =>
           msg = "Unknown event source: " +:+ text
           /\ str_contains text msg = true
       | _ => msg = "cumulus_meta requires a message_source"
       end.
Proof.
  intros Hmeta Hsource [-> | [text [-> [Hlocal Hsfn]]]].
  - exists "cumulus_meta requires a message_source".
    repeat split. unfold loadConfig, bind_M, lift.
    rewrite Hmeta, Hsource. reflexivity.
  - exists ("Unknown event source: " +:+ text).
    repeat split; [|apply str_contains_suffix].
    unfold loadConfig, bind_M, lift. rewrite Hmeta, Hsource.
    cbn [is_None eq_str py_eq].
    apply String.eqb_neq in Hlocal, Hsfn. rewrite Hlocal, Hsfn.
    reflexivity.
Qed.

Lemma loadConfig_other_source_witness :
  (exists msg,
     loadConfig module_globals cloudwatch_message VNone world0
     = (Raise (LookupError msg), world0)
     /\ is_LookupError (LookupError msg) = true
     /\ msg = "Unknown event source: cloudwatch"
        /\ str_contains "cloudwatch" msg = true)
  /\ (exists msg,
        loadConfig module_globals
          (VDict [("cumulus_meta", VDict [("message_source", VNone)])])
          VNone world0
        = (Raise (LookupError msg), world0)
        /\ is_LookupError (LookupError msg) = true
        /\ msg = "cumulus_meta requires a message_source").
Proof.
  split.
  - apply (loadConfig_other_source module_globals cloudwatch_message VNone
             (VDict [("message_source", VStr "cloudwatch")]) (VStr "cloudwatch")
             world0).
    + reflexivity.
    + reflexivity.
    + right. exists "cloudwatch". repeat split; discriminate.
  - apply (loadConfig_other_source module_globals
             (VDict [("cumulus_meta", VDict [("message_source", VNone)])]) VNone
             (VDict [("message_source", VNone)]) VNone world0).
    + reflexivity.
    + reflexivity.
    + left. reflexivity.
Defined.

(** C8 as stated fails.  A null source is neither [local] nor [sfn], and
    the error it gets names no source; a number for a source does not even
    get an error of the [LookupError] class. *)
Lemma loadConfig_other_source_counterexample :
  (loadConfig module_globals
     (VDict [("cumulus_meta", VDict [("message_source", VNone)])]) VNone world0
   = (Raise (LookupError "cumulus_meta requires a message_source"), world0)
   /\ str_contains "None" "cumulus_meta requires a message_source" = false
   /\ str_contains "null" "cumulus_meta requires a message_source" = false)
  /\ (loadConfig module_globals
        (VDict [("cumulus_meta", VDict [("message_source", VInt 3)])]) VNone
        world0
      = (Raise (TypeError "cannot concatenate str and non-str objects"), world0)
      /\ is_LookupError (TypeError "cannot concatenate str and non-str objects")
         = false).
Proof. repeat split. Qed.

(** A missing (null) source has an error of its own, which names no
    source. *)
Lemma loadConfig_null_source (G : namespace) (context : value) (w : world) :
  loadConfig G (VDict [("cumulus_meta", VDict [("message_source", VNone)])])
    context w
  = (Raise (LookupError "cumulus_meta requires a message_source"), w).
Proof. reflexivity. Qed.

(** ** The envelope *)

(** As the module is written, the recursive walk over a config stops at its
    first test, and the local lookup of the config at its call. *)
Lemma resolveConfigObject_unbound (event config : value) (w : world) :
  resolveConfigObject module_globals event config w
  = (Raise (NameError "StringType"), w).
Proof. reflexivity. Qed.

Lemma loadLocalConfig_unbound (event : value) (w : world) :
  loadLocalConfig module_globals event w
  = (Raise (NameError "_message__getConfig"), w).
Proof. reflexivity. Qed.

(** A task without an entry, or a message without [workflow_config], has
    the empty config. *)
Lemma getConfig_unconfigured (d : pydict) (taskName : string) :
  dict_get "workflow_config" d = None ->
  getConfig (VDict d) (VStr taskName) = Ok (VDict []).
Proof.
  intros H. unfold getConfig, bind_result. simpl. unfold dict_has.
  rewrite H. reflexivity.
Qed.

Lemma resolveConfigTemplates_requires_cumulus_message (G : namespace)
    (event : value) (d : pydict) (w : world) :
  dict_get "cumulus_message" d = None ->
  resolveConfigTemplates G event (VDict d) w
  = (Raise (KeyError (VStr "cumulus_message")), w).
Proof.
  intros H. unfold resolveConfigTemplates, bind_M, lift. simpl.
  unfold dict_has. rewrite H. reflexivity.
Qed.

Lemma loadNestedEvent_unbound (event context : value) (w : world) :
  loadNestedEvent module_globals event context w
  = (Raise (NameError "_message__loadConfig"), w).
Proof. reflexivity. Qed.

(** Whatever the three helper names are bound to, a config without
    [cumulus_message] cannot give an envelope: the last step reads
    [config['cumulus_message']]. *)
Lemma loadNestedEvent_requires_cumulus_message (G : namespace)
    (f : callable) (event context : value) (d : pydict) (w w1 : world) :
  G "_message__loadConfig" = Some f ->
  f [event; context] w = (Ok (VDict d), w1) ->
  dict_get "cumulus_message" d = None ->
  exists e w', loadNestedEvent G event context w = (Raise e, w').
Proof.
  intros HG Hf Hd.
  unfold loadNestedEvent, call_global, load_global, bind_M, pure, raise, lift.
  rewrite HG, Hf.
  destruct (G "_message__resolveConfigTemplates") as [g|]; [|eauto].
  destruct (g _ w1) as [[c|e] w2]; [|eauto].
  destruct (G "_message__resolveInput") as [h|]; [|eauto].
  destruct (h _ w2) as [[i|e] w3]; [|eauto].
  unfold getitem_str, py_getitem. rewrite Hd. eauto.
Qed.

(** C4 fails on the code.  With the empty config (what [__getConfig] gives
    for a task that has no entry), [__resolveConfigTemplates] raises
    [KeyError] on [del taskConfig['cumulus_message']], and
    [loadNestedEvent] itself stops at its first line, on the unbound name
    [__loadConfig]; no envelope with an empty [messageConfig] is built. *)
Theorem build_without_cumulus_message :
  getConfig granules_message (VStr "discover") = Ok (VDict [])
  /\ resolveConfigTemplates module_globals granules_message (VDict []) world0
     = (Raise (KeyError (VStr "cumulus_message")), world0)
  /\ loadNestedEvent module_globals granules_message VNone world0
     = (Raise (NameError "_message__loadConfig"), world0).
Proof. repeat split. Qed.

Lemma resolveInput_without_template (G : namespace) (event : value)
    (d : pydict) (w : world) :
  dict_get "cumulus_message" d = None
  \/ (exists cm, dict_get "cumulus_message" d = Some (VDict cm)
                 /\ dict_get "input" cm = None) ->
  resolveInput G event (VDict d) w
  = (Raise (AttributeError (type_name event) "payload"), w).
Proof.
  intros [H | [cm [H Hin]]];
    unfold resolveInput, bind_M, lift, pure, getitem_str; simpl;
    unfold dict_has; rewrite H; simpl.
  - reflexivity.
  - unfold dict_has. rewrite Hin. reflexivity.
Qed.

(** C5 fails on the code.  With a config that has no
    [cumulus_message.input], [__resolveInput] evaluates [event.payload], an
    attribute access on a dict, and raises [AttributeError]; the payload is
    not returned. *)
Theorem resolveInput_raw_payload :
  getitem_str granules_message "payload"
  = Ok (VDict [("granules", VDict [("g1", VInt 1); ("g2", VInt 2)]);
               ("owner", VStr "ops")])
  /\ resolveInput module_globals granules_message (VDict []) world0
     = (Raise (AttributeError "dict" "payload"), world0).
Proof. split; reflexivity. Qed.

(** ** Output message *)

Lemma dict_has_get (k : string) (d : pydict) :
  dict_has k d = true -> exists v, dict_get k d = Some v.
Proof. unfold dict_has. destruct (dict_get k d); [eauto | discriminate]. Qed.

Lemma dict_get_set_other (k k' : string) (v : value) (d : pydict) :
  k <> k' -> dict_get k (dict_set k' v d) = dict_get k d.
Proof.
  intros Hne. induction d as [|[k0 v0] d IH]; simpl.
  - apply String.eqb_neq in Hne. now rewrite Hne.
  - destruct (String.eqb_spec k' k0) as [->|Hk]; simpl.
    + apply String.eqb_neq in Hne. now rewrite Hne.
    + now rewrite IH.
Qed.

Lemma dict_get_set_same (k : string) (v : value) (d : pydict) :
  dict_get k (dict_set k v d) = Some v.
Proof.
  induction d as [|[k0 v0] d IH]; simpl.
  - now rewrite String.eqb_refl.
  - destruct (String.eqb_spec k k0) as [->|Hk]; simpl.
    + now rewrite String.eqb_refl.
    + apply String.eqb_neq in Hk. now rewrite Hk.
Qed.

Lemma dict_get_del_other (k k' : string) (d : pydict) :
  k <> k' -> dict_get k (dict_del k' d) = dict_get k d.
Proof.
  intros Hne. induction d as [|[k0 v0] d IH]; simpl; [reflexivity|].
  destruct (String.eqb_spec k' k0) as [->|Hk]; simpl.
  - apply String.eqb_neq in Hne. now rewrite Hne.
  - now rewrite IH.
Qed.

(** X19.  With [outputs] in the message configuration, the first statement of the
    branch assigns the attribute [payload] of a dict. *)
Lemma assignOutputs_with_outputs
    (jsonpath_update : string -> value -> value -> result value)
    (G : namespace) (nestedResponse : value) (event messageConfig : pydict)
    (w : world) :
  dict_has "outputs" messageConfig = true ->
  assignOutputs jsonpath_update G nestedResponse (VDict event)
    (VDict messageConfig) w
  = (Raise (AttributeError "dict" "payload"), w).
Proof.
  intros H. destruct (dict_has_get _ _ H) as [outs Houts].
  unfold assignOutputs, bind_M, lift, pure, getitem_str. simpl.
  rewrite H, Houts. reflexivity.
Qed.

(** Without [outputs], the task result becomes the payload. *)
Lemma assignOutputs_without_outputs
    (jsonpath_update : string -> value -> value -> result value)
    (G : namespace) (nestedResponse : value) (event : pydict) (w : world) :
  assignOutputs jsonpath_update G nestedResponse (VDict event) VNone w
  = (Ok (VDict (dict_set "payload" nestedResponse event)), w).
Proof. reflexivity. Qed.

(** C7 fails on the code.  With two output entries for the same
    destination, [__assignOutputs] raises [AttributeError] on
    [result.payload = {}], before the first entry is processed; no output
    message carries the later value. *)
Theorem assignOutputs_colliding_outputs :
  assignOutputs JsonPath.update module_globals two_results granules_message
    colliding_outputs world0
  = (Raise (AttributeError "dict" "payload"), world0).
Proof. reflexivity. Qed.

(** ** Offloading *)

(** X20.  A message whose serialization is shorter than 10000 characters
    is returned as it is by [storeRemoteResponse], the world untouched,
    whatever the global names are bound to. *)
Lemma storeRemoteResponse_below_limit (G : namespace) (event : value)
    (w : world) :
  (Z.of_nat (String.length (json_dumps event)) < 10000)%Z ->
  storeRemoteResponse G event w = (Ok event, w).
Proof.
  intros H. unfold storeRemoteResponse, MAX_NON_S3_PAYLOAD_SIZE. cbv zeta.
  destruct (is_None event); cbn [negb].
  - reflexivity.
  - apply Z.ltb_lt in H. rewrite H. reflexivity.
Qed.

(** X22.  From the limit on, no message comes back, whatever [timedelta] is bound
    to: the keyword arguments handed to [put_object] are what
    [dict.update] returned. *)
Lemma storeRemoteResponse_from_limit_raises (G : namespace) (event : value)
    (w : world) :
  is_None event = false ->
  (10000 <= Z.of_nat (String.length (json_dumps event)))%Z ->
  exists e w', storeRemoteResponse G event w = (Raise e, w').
Proof.
  intros Hnone Hlen. unfold storeRemoteResponse, MAX_NON_S3_PAYLOAD_SIZE.
  cbv zeta. rewrite Hnone. cbn [negb].
  apply Z.ltb_ge in Hlen. rewrite Hlen.
  unfold bind_M, lift, pure, raise, call_global, load_global, uuid4, utcnow,
    s3_put_object.
  destruct (getitem_str event "ingest_meta") as [im|e]; [|eauto].
  destruct (getitem_str im "message_bucket") as [bucket|e]; [|eauto].
  simpl py_copy. cbv iota beta.
  destruct (G "timedelta") as [f|]; [|eauto].
  unfold bind_M, pure.
  destruct (f _ _) as [[v|e] w2]; eauto.
Qed.

(** C6 fails on the code.  A message whose serialization is exactly 10000
    characters long is not returned: the size test is a strict
    less-than, so the offload branch is taken; and in that branch, at
    10000 as at 10001, the call raises [NameError] on [timedelta] instead
    of returning the message that holds [cumulus_meta] and [replace]. *)
Theorem storeRemoteResponse_at_limit :
  String.length (json_dumps (sized_message payload_at_limit)) = Z.to_nat 10000
  /\ fst (storeRemoteResponse module_globals (sized_message payload_at_limit)
            world0)
     = Raise (NameError "timedelta")
  /\ String.length (json_dumps (sized_message (S payload_at_limit)))
     = Z.to_nat 10001
  /\ fst (storeRemoteResponse module_globals
            (sized_message (S payload_at_limit)) world0)
     = Raise (NameError "timedelta").
Proof. vm_compute. repeat split. Qed.

(** ** The next event *)

Lemma createNextEvent_unbound (nestedResponse event messageConfig : value)
    (w : world) :
  createNextEvent module_globals nestedResponse event messageConfig w
  = (Raise (NameError "_message__assignOutputs"), w).
Proof. reflexivity. Qed.

(** X23.  Were [__assignOutputs] bound, an assembled message without [replace]
    would stop the call at [del result['replace']]. *)
Lemma createNextEvent_without_replace (G : namespace) (f : callable)
    (nestedResponse event messageConfig : value) (assembled : pydict)
    (w w1 : world) :
  G "_message__assignOutputs" = Some f ->
  f [nestedResponse; event; messageConfig] w = (Ok (VDict assembled), w1) ->
  dict_get "replace" assembled = None ->
  createNextEvent G nestedResponse event messageConfig w
  = (Raise (KeyError (VStr "replace")), w1).
Proof.
  intros HG Hf Hd.
  unfold createNextEvent, call_global, load_global, bind_M, pure, lift.
  rewrite HG, Hf. simpl. unfold dict_has.
  rewrite dict_get_set_other by discriminate. rewrite Hd. reflexivity.
Qed.

(** X24.  And with [replace], the message handed to [storeRemoteResponse] would
    have [exception] set to the text [None] and [replace] deleted. *)
Lemma createNextEvent_with_replace (G : namespace) (f : callable)
    (nestedResponse event messageConfig pointer : value) (assembled : pydict)
    (w w1 : world) :
  G "_message__assignOutputs" = Some f ->
  f [nestedResponse; event; messageConfig] w = (Ok (VDict assembled), w1) ->
  dict_get "replace" assembled = Some pointer ->
  let handed := dict_del "replace" (dict_set "exception" (VStr "None") assembled) in
  createNextEvent G nestedResponse event messageConfig w
  = call_global G "storeRemoteResponse" [VDict handed] w1
  /\ dict_get "exception" handed = Some (VStr "None").
Proof.
  intros HG Hf Hd handed. split.
  - unfold createNextEvent, call_global, load_global, bind_M, pure, lift.
    rewrite HG, Hf. simpl. unfold dict_has.
    rewrite dict_get_set_other by discriminate. rewrite Hd. reflexivity.
  - unfold handed. rewrite dict_get_del_other by discriminate.
    apply dict_get_set_same.
Qed.

(** C10 fails on the code in its second half.  With an input event that
    carries [replace], [createNextEvent] raises [NameError] at its first
    line, on the unbound name [__assignOutputs]: [replace] is not removed,
    [exception] is not set, the offload check is not reached. *)
Theorem createNextEvent_replaced_message :
  dict_has "replace"
    match replaced_message with VDict d => d | _ => [] end = true
  /\ createNextEvent module_globals two_results replaced_message VNone world0
     = (Raise (NameError "_message__assignOutputs"), world0).
Proof. split; reflexivity. Qed.

(** * Further properties of the code *)

(** ** Template resolution, the other forms *)

Lemma valueRegex_on_template (path : string) :
  str_contains_char nl path = false ->
  valueRegex_search ("{{" +:+ path +:+ "}}") = true.
Proof.
  intros Hnl. cbn -[tail_match]. now apply tail_match_append.
Qed.

Lemma lstrip_without_first (c d : ascii) (p : string) :
  str_contains_char c p = false ->
  ascii_eqb c d = false ->
  lstrip c (p +:+ String d EmptyString) = p +:+ String d EmptyString.
Proof.
  intros Hp Hd. destruct p as [|x p]; simpl.
  - now rewrite Hd.
  - apply contains_char_cons in Hp as [Hx _]. now rewrite Hx.
Qed.

Lemma templateRegex_without_brace (s : string) :
  str_contains_char lbrace s = false -> templateRegex_search s = None.
Proof.
  induction s as [|c s IH]; intros Hs; [reflexivity|].
  apply contains_char_cons in Hs as [Hc Hrest].
  cbn [templateRegex_search]. unfold ascii_eqb in *.
  rewrite Ascii.eqb_sym, Hc. now apply IH.
Qed.

Lemma anchored_without_brace (s : string) :
  str_contains_char lbrace s = false ->
  valueRegex_search s = false /\ arrayRegex_search s = false.
Proof.
  intros Hs. destruct s as [|c [|c2 s]]; try (split; reflexivity).
  apply contains_char_cons in Hs as [Hc _].
  unfold valueRegex_search, arrayRegex_search, ascii_eqb in *.
  rewrite Ascii.eqb_sym, Hc. split; reflexivity.
Qed.

Section MoreTemplates.

Variable jsonpath_find : string -> value -> result (list value).

(** X1.  For a template [{{path}}] whose path holds no line break and whose
    query matches at least one node, [__resolvePathStr] returns the first
    matched value itself, of whatever type, and ignores the other
    matches. *)
Theorem resolve_value_template (event : value) (path : string)
    (first : value) (others : list value) :
  str_contains_char nl path = false ->
  jsonpath_find path event = Ok (first :: others) ->
  resolvePathStr jsonpath_find event ("{{" +:+ path +:+ "}}") = Ok first.
Proof.
  intros Hnl Hfind. unfold resolvePathStr.
  rewrite (valueRegex_on_template path Hnl).
  change ("{{" +:+ path +:+ "}}")
    with (String lbrace (String lbrace (path +:+ String rbrace (String rbrace EmptyString)))).
  rewrite slice_of_delimited, Hfind. reflexivity.
Qed.

(** X2.  For a template [{{path}}] (no brace and no line break in the path)
    whose query matches no node, [__resolvePathStr] raises the
    could-not-resolve [LookupError], which carries the whole template: the
    call falls through to the embedded form, which runs the same query
    again. *)
Theorem resolve_value_template_unmatched (event : value) (path : string) :
  str_contains_char nl path = false ->
  str_contains_char lbrace path = false ->
  str_contains_char rbrace path = false ->
  jsonpath_find path event = Ok [] ->
  resolvePathStr jsonpath_find event ("{{" +:+ path +:+ "}}")
  = Raise (LookupError ("Could not resolve path {{" +:+ path +:+ "}}")).
Proof.
  intros Hnl Hl Hr Hfind. unfold resolvePathStr.
  rewrite (valueRegex_on_template path Hnl).
  change ("{{" +:+ path +:+ "}}")
    with (String lbrace (String lbrace (path +:+ String rbrace (String rbrace EmptyString)))).
  rewrite slice_of_delimited, Hfind. cbn [bind_result].
  change (arrayRegex_search
            (String lbrace (String lbrace (path +:+ String rbrace (String rbrace EmptyString)))))
    with false.
  cbn [bind_result].
  change (String lbrace (String lbrace (path +:+ String rbrace (String rbrace EmptyString))))
    with (EmptyString +:+ String lbrace (String lbrace path +:+ String rbrace (String rbrace EmptyString))) at 1.
  rewrite (templateRegex_on_embedded EmptyString (String lbrace path)
             (String rbrace EmptyString) eq_refl); [|discriminate|].
  2:{ cbn [str_contains_char]. rewrite Hr. reflexivity. }
  cbn [lstrip String.append]. rewrite !ascii_eqb_refl.
  rewrite (lstrip_without_first lbrace rbrace path Hl eq_refl).
  rewrite rstrip_append_same, (rstrip_without _ _ Hr), Hfind.
  reflexivity.
Qed.

(** X3.  A text without any opening brace cannot be resolved: for every
    message and every query engine, [__resolvePathStr] raises the
    could-not-resolve [LookupError] with the text in its message (no query
    is run). *)
Theorem resolve_plain_text (event : value) (str : string) :
  str_contains_char lbrace str = false ->
  resolvePathStr jsonpath_find event str
  = Raise (LookupError ("Could not resolve path " +:+ str)).
Proof.
  intros Hs. destruct (anchored_without_brace str Hs) as [Hv Ha].
  unfold resolvePathStr. rewrite Hv, Ha. cbn [bind_result].
  now rewrite (templateRegex_without_brace str Hs).
Qed.

(** X4.  In the embedded form the first match is not coerced to text: when
    the leftmost template [{path}] of a string (not of an exact form)
    matches a first value that is no text, [__resolvePathStr] raises
    [TypeError] and returns no string. *)
Theorem resolve_embedded_not_text (event : value)
    (pre path post : string) (first : value) (others : list value) :
  str_contains_char lbrace pre = false ->
  path <> EmptyString ->
  str_contains_char lbrace path = false ->
  str_contains_char rbrace path = false ->
  let str := pre +:+ String lbrace (path +:+ String rbrace EmptyString) +:+ post in
  valueRegex_search str = false ->
  arrayRegex_search str = false ->
  jsonpath_find path event = Ok (first :: others) ->
  (forall text, first <> VStr text) ->
  resolvePathStr jsonpath_find event str
  = Raise (TypeError "replace() argument 2 must be a string").
Proof.
  intros Hpre Hne Hl Hr str Hv Ha Hfind Hnot.
  assert (Hshape : str = pre +:+ String lbrace (path +:+ String rbrace post)).
  { unfold str. simpl. now rewrite append_assoc. }
  unfold resolvePathStr. rewrite Hv, Ha. cbn [bind_result].
  rewrite Hshape at 1.
  rewrite (templateRegex_on_embedded pre path post Hpre Hne Hr).
  rewrite (strip_template path Hl Hr Hne), Hfind. cbn [bind_result].
  destruct first; try reflexivity. now destruct (Hnot s).
Qed.

End MoreTemplates.

Lemma resolve_value_template_witness :
  resolvePathStr JsonPath.find granules_message "{{$.payload.granules.*}}"
  = Ok (VInt 1).
Proof.
  exact (resolve_value_template JsonPath.find granules_message
           "$.payload.granules.*" (VInt 1) [VInt 2] eq_refl eq_refl).
Defined.

Lemma resolve_value_template_unmatched_witness :
  resolvePathStr JsonPath.find granules_message "{{$.payload.nothing}}"
  = Raise (LookupError "Could not resolve path {{$.payload.nothing}}").
Proof.
  exact (resolve_value_template_unmatched JsonPath.find granules_message
           "$.payload.nothing" eq_refl eq_refl eq_refl eq_refl).
Defined.

Lemma resolve_plain_text_witness :
  resolvePathStr JsonPath.find granules_message "MOD09GQ"
  = Raise (LookupError "Could not resolve path MOD09GQ").
Proof.
  exact (resolve_plain_text JsonPath.find granules_message "MOD09GQ" eq_refl).
Defined.

Lemma resolve_embedded_not_text_witness :
  resolvePathStr JsonPath.find granules_message "n={$.payload.granules.g1}"
  = Raise (TypeError "replace() argument 2 must be a string").
Proof.
  exact (resolve_embedded_not_text JsonPath.find granules_message
           "n=" "$.payload.granules.g1" "" (VInt 1) []
           eq_refl ltac:(discriminate) eq_refl eq_refl eq_refl eq_refl eq_refl
           ltac:(discriminate)).
Defined.

(** ** Execution history, the edges *)

Lemma history_lookup_never_built_witness :
  getTaskNameFromExecutionHistory validate_history VNone
  = Raise (KeyError (VStr "event")).
Proof.
  exact (history_lookup_never_built validate_history VNone _ _ eq_refl).
Defined.

(** X6.  On an empty window of events, [__getTaskNameFromExecutionHistory]
    raises the not-found [LookupError] naming the ARN when the ARN is a
    text; when no ARN is given ([None]), building that message fails and
    the call raises [TypeError] instead. *)
Theorem empty_history_outcome (executionHistory arn : value) :
  getitem_str executionHistory "events" = Ok (VList []) ->
  getTaskNameFromExecutionHistory executionHistory arn
  = match arn with
    | VStr a => Raise (LookupError ("No task found for " +:+ a))
    | _ => Raise (TypeError "cannot concatenate str and non-str objects")
    end.
Proof.
  intros H. unfold getTaskNameFromExecutionHistory. rewrite H.
  now destruct arn.
Qed.

Lemma empty_history_outcome_witness :
  getTaskNameFromExecutionHistory (VDict [("events", VList [])]) (VStr "X")
  = Raise (LookupError "No task found for X")
  /\ getTaskNameFromExecutionHistory (VDict [("events", VList [])]) VNone
     = Raise (TypeError "cannot concatenate str and non-str objects").
Proof.
  split.
  - exact (empty_history_outcome (VDict [("events", VList [])]) (VStr "X") eq_refl).
  - exact (empty_history_outcome (VDict [("events", VList [])]) VNone eq_refl).
Defined.

(** ** Step Functions lookups *)

Lemma getSfnExecutionArnByName_raises (stateMachineArn executionName : value) :
  exists e, getSfnExecutionArnByName stateMachineArn executionName = Raise e.
Proof.
  unfold getSfnExecutionArnByName, py_str_replace.
  destruct stateMachineArn; simpl; eauto.
Qed.

Lemma getCurrentSfnTask_no_task_shared (G : namespace)
    (stateMachineArn executionName arn r : value) (w w' : world) :
  getCurrentSfnTask G stateMachineArn executionName arn w = (Ok r, w') ->
  r = VNone.
Proof.
  unfold getCurrentSfnTask, call_global, load_global, bind_M, pure, raise.
  destruct (G "_message__getSfnExecutionArnByName") as [f|]; [|discriminate].
  destruct (f _ w) as [[a|e] w1]; [|discriminate].
  destruct (G "client") as [c|]; [|discriminate].
  destruct (c _ w1) as [[h|e] w2]; [|discriminate].
  destruct (G "_message__getTaskNameFromExecutionHistory") as [g|];
    [|discriminate].
  destruct (g _ w2) as [[n|e] w3]; [|discriminate].
  now intros [= <- _].
Qed.

(** X7.  [__getCurrentSfnTask] never yields a task name: whatever the names
    it calls are bound to, a call that returns, returns [None] (the function
    has no [return] statement). *)
Theorem getCurrentSfnTask_no_task (G : namespace)
    (stateMachineArn executionName arn : value) (w : world) :
  match fst (getCurrentSfnTask G stateMachineArn executionName arn w) with
  | Ok r => r = VNone
  | Raise _ => True
  end.
Proof.
  destruct (getCurrentSfnTask G stateMachineArn executionName arn w)
    as [[r|e] w'] eqn:E; [|exact I].
  exact (getCurrentSfnTask_no_task_shared _ _ _ _ _ _ _ E).
Qed.

(** X8.  With [__getSfnExecutionArnByName] bound to the method of the
    class, [__getCurrentSfnTask] raises before it asks for any execution
    history: the helper calls [join] with two arguments. *)
Theorem getCurrentSfnTask_helper_raises (G : namespace)
    (stateMachineArn executionName arn : value) (w : world) :
  G "_message__getSfnExecutionArnByName"
  = Some (method2 (fun a b => lift (getSfnExecutionArnByName a b))) ->
  exists e,
    getCurrentSfnTask G stateMachineArn executionName arn w = (Raise e, w).
Proof.
  intros HG.
  destruct (getSfnExecutionArnByName_raises stateMachineArn executionName)
    as [e He].
  exists e.
  unfold getCurrentSfnTask, call_global, load_global, bind_M, pure.
  rewrite HG. unfold method2, lift. rewrite He. reflexivity.
Qed.

Lemma getCurrentSfnTask_helper_raises_witness :
  exists e,
    getCurrentSfnTask arn_helper_bound
      (VStr "arn:aws:states:us-east-1:1:stateMachine:m") (VStr "e1") (VStr "X")
      world0
    = (Raise e, world0).
Proof.
  exact (getCurrentSfnTask_helper_raises arn_helper_bound _ _ _ world0 eq_refl).
Defined.

(** X9.  A message of source [sfn] gets no config: with
    [__getCurrentSfnTask] bound to the method of the class,
    [__loadStepFunctionConfig] returns [None] whenever it returns, as the
    task finder gives it no task name. *)
Theorem loadStepFunctionConfig_no_config (G G' : namespace)
    (event context : value) (w : world) :
  G "_message__getCurrentSfnTask" = Some (method3 (getCurrentSfnTask G')) ->
  match fst (loadStepFunctionConfig G event context w) with
  | Ok r => r = VNone
  | Raise _ => True
  end.
Proof.
  intros HG.
  unfold loadStepFunctionConfig, call_global, load_global, bind_M, pure, lift.
  destruct (getitem_str event "cumulus_meta") as [meta|]; [|exact I].
  destruct (py_in _ context) as [hasArn|]; [|exact I].
  destruct (getitem_str context _) as [arn|]; [|exact I].
  rewrite HG.
  destruct (getitem_str meta "state_machine") as [sm|]; [|exact I].
  destruct (getitem_str meta "execution_name") as [en|]; [|exact I].
  unfold method3.
  destruct (getCurrentSfnTask G' sm en arn w) as [[t|e] w1] eqn:Ht;
    [|exact I].
  apply getCurrentSfnTask_no_task_shared in Ht. subst t.
  reflexivity.
Qed.

Lemma loadStepFunctionConfig_no_config_witness :
  match fst (loadStepFunctionConfig sfn_task_bound sfn_message
               activity_context world0) with
  | Ok r => r = VNone
  | Raise _ => True
  end.
Proof.
  exact (loadStepFunctionConfig_no_config sfn_task_bound sfn_stubs
           sfn_message activity_context world0 eq_refl).
Defined.

(** On that input the call does return. *)
Lemma loadStepFunctionConfig_sample :
  loadStepFunctionConfig sfn_task_bound sfn_message activity_context world0
  = (Ok VNone, world0).
Proof. reflexivity. Qed.

(** ** Configuration of the task, the edges *)

(** X10.  For a message whose [workflow_config] is a dict, [__getConfig]
    returns the entry of the task when there is one and the empty config
    otherwise; it does not raise. *)
Theorem getConfig_entry_or_empty (d wc : pydict) (taskName : string) :
  dict_get "workflow_config" d = Some (VDict wc) ->
  getConfig (VDict d) (VStr taskName)
  = Ok (match dict_get taskName wc with
        | Some config => config
        | None => VDict []
        end).
Proof.
  intros H. unfold getConfig, bind_result, getitem_str. simpl.
  unfold dict_has. rewrite H. simpl. unfold dict_has.
  now destruct (dict_get taskName wc).
Qed.

Lemma getConfig_entry_or_empty_witness :
  getConfig configured_message (VStr "discover") = Ok discover_config
  /\ getConfig configured_message (VStr "sync") = Ok (VDict []).
Proof.
  split.
  - exact (getConfig_entry_or_empty configured_fields workflow_entries
             "discover" eq_refl).
  - exact (getConfig_entry_or_empty configured_fields workflow_entries
             "sync" eq_refl).
Defined.

(** X11.  A message without [cumulus_meta], or whose [cumulus_meta] has no
    [message_source], makes [__loadConfig] raise [KeyError] on the missing
    key (an error of the [LookupError] class), not one of its own two
    errors. *)
Theorem loadConfig_missing_key (G : namespace) (d : pydict) (context : value)
    (w : world) :
  (dict_get "cumulus_meta" d = None ->
   loadConfig G (VDict d) context w
   = (Raise (KeyError (VStr "cumulus_meta")), w))
  /\ (forall meta,
        dict_get "cumulus_meta" d = Some (VDict meta) ->
        dict_get "message_source" meta = None ->
        loadConfig G (VDict d) context w
        = (Raise (KeyError (VStr "message_source")), w)).
Proof.
  split.
  - intros H. unfold loadConfig, bind_M, lift, getitem_str. simpl.
    rewrite H. reflexivity.
  - intros meta H Hs. unfold loadConfig, bind_M, lift, getitem_str. simpl.
    rewrite H. simpl. rewrite Hs. reflexivity.
Qed.

Lemma loadConfig_missing_key_witness :
  loadConfig module_globals (VDict [("payload", VDict [])]) VNone world0
  = (Raise (KeyError (VStr "cumulus_meta")), world0)
  /\ loadConfig module_globals (VDict [("cumulus_meta", VDict [])]) VNone world0
     = (Raise (KeyError (VStr "message_source")), world0).
Proof.
  split.
  - exact (proj1 (loadConfig_missing_key module_globals
                    [("payload", VDict [])] VNone world0) eq_refl).
  - exact (proj2 (loadConfig_missing_key module_globals
                    [("cumulus_meta", VDict [])] VNone world0) [] eq_refl eq_refl).
Defined.

(** When [cumulus_meta.message_source] is null, [__loadConfig] raises
    [LookupError] with the message that a source is required, whatever the
    rest of the message and the context are. *)
Theorem loadConfig_null_source_general (G : namespace)
    (event context meta : value) (w : world) :
  getitem_str event "cumulus_meta" = Ok meta ->
  getitem_str meta "message_source" = Ok VNone ->
  loadConfig G event context w
  = (Raise (LookupError "cumulus_meta requires a message_source"), w).
Proof.
  intros Hm Hs. unfold loadConfig, bind_M, lift. rewrite Hm, Hs. reflexivity.
Qed.

Lemma loadConfig_null_source_general_witness :
  loadConfig module_globals
    (VDict [("cumulus_meta", VDict [("message_source", VNone)])]) VNone world0
  = (Raise (LookupError "cumulus_meta requires a message_source"), world0).
Proof.
  exact (loadConfig_null_source_general module_globals
           (VDict [("cumulus_meta", VDict [("message_source", VNone)])]) VNone
           (VDict [("message_source", VNone)]) world0 eq_refl eq_refl).
Defined.

(** X12.  When [cumulus_meta.message_source] is neither null nor a text (a
    number, a boolean, a list, an object), [__loadConfig] raises
    [TypeError] while it builds the unknown-source message: the caller gets
    no [LookupError]. *)
Theorem loadConfig_source_not_text (G : namespace)
    (event context meta source : value) (w : world) :
  getitem_str event "cumulus_meta" = Ok meta ->
  getitem_str meta "message_source" = Ok source ->
  is_None source = false ->
  (forall text, source <> VStr text) ->
  loadConfig G event context w
  = (Raise (TypeError "cannot concatenate str and non-str objects"), w).
Proof.
  intros Hm Hs Hnone Hnot. unfold loadConfig, bind_M, lift.
  rewrite Hm, Hs, Hnone.
  destruct source; try discriminate; try reflexivity.
  now destruct (Hnot s).
Qed.

Lemma loadConfig_source_not_text_witness :
  loadConfig module_globals
    (VDict [("cumulus_meta", VDict [("message_source", VInt 3)])]) VNone world0
  = (Raise (TypeError "cannot concatenate str and non-str objects"), world0).
Proof.
  exact (loadConfig_source_not_text module_globals
           (VDict [("cumulus_meta", VDict [("message_source", VInt 3)])]) VNone
           (VDict [("message_source", VInt 3)]) (VInt 3) world0
           eq_refl eq_refl eq_refl ltac:(discriminate)).
Defined.

(** ** Remote events, the other branch *)

Lemma loadRemoteEvent_with_replace_witness :
  loadRemoteEvent replaced_message world_with_object
  = (Ok (VStr stored_body), world_with_object).
Proof.
  exact (loadRemoteEvent_with_replace
           [("cumulus_meta", VDict [("message_source", VStr "local")]);
            ("replace", VDict [("Bucket", VStr "b"); ("Key", VStr "events/1")])]
           "b" "events/1" stored_body world_with_object eq_refl eq_refl).
Defined.

(** X14.  [loadRemoteEvent] only reads: whatever the event and the store,
    the world after the call is the world before it. *)
Theorem loadRemoteEvent_reads_only (event : value) (w : world) :
  snd (loadRemoteEvent event w) = w.
Proof.
  unfold loadRemoteEvent, bind_M, lift, pure, s3_object_get.
  destruct (py_in _ event) as [[|]|]; try reflexivity.
  destruct (getitem_str event "replace") as [rep|]; [|reflexivity].
  destruct (getitem_str rep "Bucket") as [bucket|]; [|reflexivity].
  destruct (getitem_str rep "Key") as [key|]; [|reflexivity].
  destruct bucket; try reflexivity.
  destruct key; try reflexivity.
  destruct (s3_objects w !! _); reflexivity.
Qed.

(** X15.  When [replace] points to an object the store does not hold,
    [loadRemoteEvent] raises the error of the store; the message that was
    passed in is not returned in its place. *)
Theorem loadRemoteEvent_missing_object (d : pydict) (bucket key : string)
    (w : world) :
  dict_get "replace" d = Some (VDict [("Bucket", VStr bucket); ("Key", VStr key)]) ->
  s3_objects w !! (bucket, key) = None ->
  loadRemoteEvent (VDict d) w = (Raise (ClientError "NoSuchKey"), w).
Proof.
  intros Hd Hs. unfold loadRemoteEvent, bind_M, lift, getitem_str. simpl.
  unfold dict_has. rewrite Hd. simpl. rewrite Hs. reflexivity.
Qed.

Lemma loadRemoteEvent_missing_object_witness :
  loadRemoteEvent replaced_message world0
  = (Raise (ClientError "NoSuchKey"), world0).
Proof.
  exact (loadRemoteEvent_missing_object
           [("cumulus_meta", VDict [("message_source", VStr "local")]);
            ("replace", VDict [("Bucket", VStr "b"); ("Key", VStr "events/1")])]
           "b" "events/1" world0 eq_refl eq_refl).
Defined.

(** ** The envelope, the other paths *)

Lemma dict_get_absent (k : string) (d : pydict) :
  ~ List.In k (map fst d) -> dict_get k d = None.
Proof.
  induction d as [|[k0 v0] d IH]; intros Hnotin; simpl; [reflexivity|].
  destruct (String.eqb_spec k k0) as [->|Hk].
  - exfalso. apply Hnotin. simpl. now left.
  - apply IH. intros Hin. apply Hnotin. simpl. now right.
Qed.

Lemma dict_get_del_same (k : string) (d : pydict) :
  List.NoDup (map fst d) -> dict_get k (dict_del k d) = None.
Proof.
  induction d as [|[k0 v0] d IH]; intros Hnd; simpl; [reflexivity|].
  inversion Hnd as [|? ? Hnotin Hrest]; subst.
  destruct (String.eqb_spec k k0) as [->|Hk].
  - now apply dict_get_absent.
  - simpl. apply String.eqb_neq in Hk. rewrite Hk. now apply IH.
Qed.

(** X16.  The task never sees its own mapping rules: for a config that has
    a [cumulus_message] entry, [__resolveConfigTemplates] hands to the
    resolver (whatever the name it calls is bound to) the message and the
    config without that entry, every other entry kept as it was. *)
Theorem resolveConfigTemplates_strips (G : namespace) (event rules : value)
    (d : pydict) (w : world) :
  dict_get "cumulus_message" d = Some rules ->
  List.NoDup (map fst d) ->
  let taskConfig := dict_del "cumulus_message" d in
  resolveConfigTemplates G event (VDict d) w
  = call_global G "__" [event; VDict taskConfig] w
  /\ dict_get "cumulus_message" taskConfig = None
  /\ forall k, k <> "cumulus_message" -> dict_get k taskConfig = dict_get k d.
Proof.
  intros Hd Hnd taskConfig. repeat split.
  - unfold resolveConfigTemplates, bind_M, lift. simpl.
    unfold dict_has. rewrite Hd. reflexivity.
  - now apply dict_get_del_same.
  - intros k Hk. now apply dict_get_del_other.
Qed.

Lemma resolveConfigTemplates_strips_witness :
  resolveConfigTemplates module_globals configured_message discover_config
    world0
  = call_global module_globals "__"
      [configured_message; VDict [("collection", VStr "{$.payload.owner}")]]
      world0
  /\ dict_get "cumulus_message" [("collection", VStr "{$.payload.owner}")] = None
  /\ forall k, k <> "cumulus_message" ->
       dict_get k [("collection", VStr "{$.payload.owner}")]
       = dict_get k [("cumulus_message",
                      VDict [("input", VStr "{{$.payload.granules}}")]);
                     ("collection", VStr "{$.payload.owner}")].
Proof.
  refine (resolveConfigTemplates_strips module_globals configured_message
            (VDict [("input", VStr "{{$.payload.granules}}")])
            [("cumulus_message", VDict [("input", VStr "{{$.payload.granules}}")]);
             ("collection", VStr "{$.payload.owner}")]
            world0 eq_refl _).
  repeat constructor; simpl; intuition discriminate.
Defined.

(** X17.  As the module is written, [__resolveInput] returns no input at
    all: for every message and every config, of any shape, it raises, and
    leaves the world as it was. *)
Theorem resolveInput_never_returns (event config : value) (w : world) :
  exists e, resolveInput module_globals event config w = (Raise e, w).
Proof.
  unfold resolveInput, bind_M, lift, pure, call_global, load_global, raise.
  destruct (py_in (VStr "cumulus_message") config) as [[|]|e]; simpl; eauto.
  destruct (getitem_str config "cumulus_message") as [cm|e]; simpl; eauto.
  destruct (py_in (VStr "input") cm) as [[|]|e]; simpl; eauto.
  destruct (getitem_str cm "input") as [p|e]; simpl; eauto.
Qed.

(** ** Output message, the branch without outputs *)

(** X18.  Without [outputs] (no message configuration, or one that has no
    such entry), [__assignOutputs] returns the message with the task result
    as its [payload] and every other entry, [cumulus_meta] among them, as
    it was. *)
Theorem assignOutputs_replaces_payload
    (jsonpath_update : string -> value -> value -> result value)
    (G : namespace) (nestedResponse messageConfig : value) (event : pydict)
    (w : world) :
  messageConfig = VNone
  \/ (exists m, messageConfig = VDict m /\ dict_get "outputs" m = None) ->
  let result := dict_set "payload" nestedResponse event in
  assignOutputs jsonpath_update G nestedResponse (VDict event) messageConfig w
  = (Ok (VDict result), w)
  /\ dict_get "payload" result = Some nestedResponse
  /\ forall k, k <> "payload" -> dict_get k result = dict_get k event.
Proof.
  intros Hmc result. repeat split.
  - destruct Hmc as [-> | [m [-> Hm]]]; [reflexivity|].
    unfold assignOutputs, bind_M, lift, pure. simpl.
    unfold dict_has. rewrite Hm. reflexivity.
  - apply dict_get_set_same.
  - intros k Hk. now apply dict_get_set_other.
Qed.

Lemma assignOutputs_replaces_payload_witness :
  assignOutputs JsonPath.update module_globals two_results
    (VDict [("cumulus_meta", VDict [("message_source", VStr "local")]);
            ("payload", VStr "old")])
    (VDict [("input", VStr "{{$.payload}}")]) world0
  = (Ok (VDict [("cumulus_meta", VDict [("message_source", VStr "local")]);
                ("payload", two_results)]), world0).
Proof.
  exact (proj1 (assignOutputs_replaces_payload JsonPath.update module_globals
                  two_results (VDict [("input", VStr "{{$.payload}}")])
                  [("cumulus_meta", VDict [("message_source", VStr "local")]);
                   ("payload", VStr "old")]
                  world0
                  (or_intror (ex_intro _ [("input", VStr "{{$.payload}}")]
                                (conj eq_refl eq_refl))))).
Defined.

Lemma assignOutputs_with_outputs_witness :
  assignOutputs JsonPath.update module_globals two_results
    (VDict [("payload", VStr "old")]) (VDict [("outputs", VList [])]) world0
  = (Raise (AttributeError "dict" "payload"), world0).
Proof.
  exact (assignOutputs_with_outputs JsonPath.update module_globals two_results
           [("payload", VStr "old")] [("outputs", VList [])] world0 eq_refl).
Defined.

(** ** Offloading, the other facts *)

Lemma storeRemoteResponse_below_limit_witness :
  storeRemoteResponse module_globals (sized_message 3) world0
  = (Ok (sized_message 3), world0).
Proof.
  exact (storeRemoteResponse_below_limit module_globals (sized_message 3)
           world0 eq_refl).
Defined.

Lemma storeRemoteResponse_from_limit_raises_witness :
  exists e w',
    storeRemoteResponse module_globals (sized_message payload_at_limit) world0
    = (Raise e, w').
Proof.
  apply (storeRemoteResponse_from_limit_raises module_globals
           (sized_message payload_at_limit) world0 eq_refl).
  vm_compute. discriminate.
Defined.

(** X21.  As the module is written, [storeRemoteResponse] never writes to
    the object store: whatever the message, the objects after the call are
    the objects before it. *)
Theorem storeRemoteResponse_never_stores (event : value) (w : world) :
  s3_objects (snd (storeRemoteResponse module_globals event w)) = s3_objects w.
Proof.
  unfold storeRemoteResponse. cbv zeta.
  destruct (_ <? MAX_NON_S3_PAYLOAD_SIZE)%Z; [reflexivity|].
  unfold bind_M, lift, pure, raise, call_global, load_global, uuid4, utcnow.
  destruct (getitem_str event "ingest_meta") as [im|]; [|reflexivity].
  destruct (getitem_str im "message_bucket") as [bucket|]; reflexivity.
Qed.

(** ** The next event, with the helper bound *)

Lemma createNextEvent_without_replace_witness :
  createNextEvent assign_bound two_results granules_message VNone world0
  = (Raise (KeyError (VStr "replace")), world0).
Proof.
  refine (createNextEvent_without_replace assign_bound _ two_results
            granules_message VNone _ world0 world0 eq_refl eq_refl eq_refl).
Defined.

Lemma createNextEvent_with_replace_witness :
  createNextEvent assign_bound two_results replaced_message VNone world0
  = (Raise (NameError "storeRemoteResponse"), world0).
Proof.
  refine (proj1 (createNextEvent_with_replace assign_bound _ two_results
                   replaced_message VNone _ _ world0 world0
                   eq_refl eq_refl eq_refl)).
Defined.

(** ** The process boundary *)

Lemma json_dumps_of_sized (result : value) (n : nat) :
  py_len result = Ok n -> json_dumps result <> EmptyString.
Proof. destruct result; simpl; discriminate. Qed.

Section AdapterProperties.

Variable json_loads : string -> result value.
Variable transformer_loadRemoteEvent : value -> M value.
Variable transformer_loadNestedEvent : value -> value -> M value.
Variable transformer_createNextEvent : value -> value -> value -> M value.

Local Abbreviation run :=
  (adapter_main json_loads transformer_loadRemoteEvent
     transformer_loadNestedEvent transformer_createNextEvent).

(** X25.  The adapter script exits with status 0 exactly when it has written
    a result to the standard output; in every other case the status is 1
    and nothing is written there. *)
Theorem adapter_status_and_output (argv : list string) (line : string)
    (w : world) :
  (exit_status (run argv line w) = 0%Z
   /\ written (run argv line w) <> EmptyString)
  \/ (exit_status (run argv line w) = 1%Z
      /\ written (run argv line w) = EmptyString).
Proof.
  unfold adapter_main, adapter_handle.
  destruct (nth_error argv 1) as [fn|]; [|now right].
  destruct (json_loads line) as [allInput|]; [|now right].
  destruct (getitem_str allInput "event") as [event|]; [|now right].
  destruct (adapter_call _ _ _ fn allInput event w) as [[[result|]|e] w'].
  - destruct (is_None result); [now right|].
    destruct (py_len result) as [n|e] eqn:Hlen.
    + destruct (0 <? n)%nat; [left | now right].
      split; [reflexivity|]. simpl. now apply (json_dumps_of_sized _ n).
    + destruct (is_LookupError e); now right.
  - now right.
  - destruct (is_LookupError e); now right.
Qed.

(** X26.  A function name that is none of the three makes the script report
    an unexpected [NameError] (the variable [result] was never bound) and
    exit with status 1, without calling the transformer. *)
Theorem adapter_unknown_function (argv : list string) (line functionName : string)
    (allInput event : value) (w : world) :
  nth_error argv 1 = Some functionName ->
  json_loads line = Ok allInput ->
  getitem_str allInput "event" = Ok event ->
  functionName <> "loadRemoteEvent" ->
  functionName <> "loadNestedEvent" ->
  functionName <> "createNextEvent" ->
  run argv line w
  = Finished EmptyString (Some (UnexpectedReport (NameError "result"))) 1.
Proof.
  intros Hfn Hloads Hevent H1 H2 H3.
  unfold adapter_main, adapter_call. rewrite Hfn, Hloads, Hevent.
  apply String.eqb_neq in H1, H2, H3. rewrite H1, H2, H3. reflexivity.
Qed.

(** X27.  For [loadNestedEvent], an input without [context] is reported as
    a lookup error ([KeyError] is of that class) with status 1, and the
    transformer is not called. *)
Theorem adapter_missing_context (argv : list string) (line : string)
    (d : pydict) (event : value) (w : world) :
  nth_error argv 1 = Some "loadNestedEvent" ->
  json_loads line = Ok (VDict d) ->
  dict_get "event" d = Some event ->
  dict_get "context" d = None ->
  run argv line w
  = Finished EmptyString (Some (LookupReport (KeyError (VStr "context")))) 1.
Proof.
  intros Hfn Hloads Hevent Hcontext.
  unfold adapter_main, adapter_call, getitem_str, bind_M, lift.
  rewrite Hfn, Hloads. simpl. rewrite Hevent. simpl. rewrite Hcontext.
  reflexivity.
Qed.

(** X28.  An input without [event] ends the script with an uncaught
    [KeyError]: the read is outside the [try] block, so neither handler
    reports it. *)
Theorem adapter_missing_event (argv : list string) (line functionName : string)
    (d : pydict) (w : world) :
  nth_error argv 1 = Some functionName ->
  json_loads line = Ok (VDict d) ->
  dict_get "event" d = None ->
  run argv line w
  = Traceback EmptyString (UncaughtExn (KeyError (VStr "event"))).
Proof.
  intros Hfn Hloads Hevent. unfold adapter_main, getitem_str.
  rewrite Hfn, Hloads. simpl. rewrite Hevent. reflexivity.
Qed.

(** X29.  A transformer that returns an empty result (or [None]) makes the
    script exit with status 1 in silence: nothing on the standard output,
    no diagnostic. *)
Theorem adapter_empty_result (argv : list string) (line : string)
    (allInput event result : value) (w w' : world) :
  nth_error argv 1 = Some "loadRemoteEvent" ->
  json_loads line = Ok allInput ->
  getitem_str allInput "event" = Ok event ->
  transformer_loadRemoteEvent event w = (Ok result, w') ->
  result = VNone \/ py_len result = Ok 0%nat ->
  run argv line w = Finished EmptyString None 1.
Proof.
  intros Hfn Hloads Hevent Hcall Hempty.
  unfold adapter_main, adapter_call, bind_M, pure.
  rewrite Hfn, Hloads, Hevent. simpl. rewrite Hcall.
  destruct Hempty as [-> | Hlen]; [reflexivity|].
  destruct (is_None result); [reflexivity|]. rewrite Hlen. reflexivity.
Qed.

End AdapterProperties.

Lemma adapter_unknown_function_witness :
  adapter_main (sample_loads (VDict [("event", granules_message)]))
    loadRemoteEvent (loadNestedEvent module_globals)
    (createNextEvent module_globals)
    ["__main__.py"; "loadEvent"] "input" world0
  = Finished EmptyString (Some (UnexpectedReport (NameError "result"))) 1.
Proof.
  exact (adapter_unknown_function _ _ _ _ ["__main__.py"; "loadEvent"] "input"
           "loadEvent" (VDict [("event", granules_message)]) granules_message
           world0 eq_refl eq_refl eq_refl
           ltac:(discriminate) ltac:(discriminate) ltac:(discriminate)).
Defined.

Lemma adapter_missing_context_witness :
  adapter_main (sample_loads (VDict [("event", granules_message)]))
    loadRemoteEvent (loadNestedEvent module_globals)
    (createNextEvent module_globals)
    ["__main__.py"; "loadNestedEvent"] "input" world0
  = Finished EmptyString (Some (LookupReport (KeyError (VStr "context")))) 1.
Proof.
  exact (adapter_missing_context _ _ _ _ ["__main__.py"; "loadNestedEvent"]
           "input" [("event", granules_message)] granules_message world0
           eq_refl eq_refl eq_refl eq_refl).
Defined.

Lemma adapter_missing_event_witness :
  adapter_main (sample_loads (VDict [("context", VDict [])]))
    loadRemoteEvent (loadNestedEvent module_globals)
    (createNextEvent module_globals)
    ["__main__.py"; "loadRemoteEvent"] "input" world0
  = Traceback EmptyString (UncaughtExn (KeyError (VStr "event"))).
Proof.
  exact (adapter_missing_event _ _ _ _ ["__main__.py"; "loadRemoteEvent"]
           "input" "loadRemoteEvent" [("context", VDict [])] world0
           eq_refl eq_refl eq_refl).
Defined.

Lemma adapter_empty_result_witness :
  adapter_main (sample_loads (VDict [("event", VDict [])]))
    loadRemoteEvent (loadNestedEvent module_globals)
    (createNextEvent module_globals)
    ["__main__.py"; "loadRemoteEvent"] "input" world0
  = Finished EmptyString None 1.
Proof.
  exact (adapter_empty_result _ loadRemoteEvent _ _
           ["__main__.py"; "loadRemoteEvent"] "input"
           (VDict [("event", VDict [])]) (VDict []) (VDict []) world0 world0
           eq_refl eq_refl eq_refl eq_refl (or_intror eq_refl)).
Defined.

(** A run of the adapter script that succeeds. *)
Lemma adapter_success_sample :
  adapter_main (sample_loads (VDict [("event", VDict [("payload", VInt 1)])]))
    loadRemoteEvent (loadNestedEvent module_globals)
    (createNextEvent module_globals)
    ["__main__.py"; "loadRemoteEvent"] "input" world0
  = Finished (json_dumps (VDict [("payload", VInt 1)])) None 0.
Proof. reflexivity. Qed.

(** X30.  The script at the end of [message.py] never exits with status 0,
    whatever its arguments and whatever its global names are bound to: an
    exception in the [try] block reaches a handler that calls
    [sys.stderr], and so does the [SystemExit] of [sys.exit(0)].  As the
    module is written, it writes nothing to the standard output
    either. *)
Theorem script_never_succeeds (json_loads : string -> result value)
    (G : namespace) (argv : list string) (w : world) :
  exit_status (script_main json_loads G argv w) = 1%Z
  /\ written (script_main json_loads module_globals argv w) = EmptyString.
Proof.
  split.
  - unfold script_main, script_handler.
    destruct argv as [|scriptName [|functionName rest]]; try reflexivity.
    destruct (script_call json_loads G functionName w) as [[result|e] w'];
      [|reflexivity].
    destruct (is_None result); [reflexivity|].
    destruct (py_len result) as [n|e]; [|reflexivity].
    destruct (0 <? n)%nat; reflexivity.
  - unfold script_main, script_handler, script_call.
    destruct argv as [|scriptName [|functionName rest]]; try reflexivity.
    destruct (String.eqb functionName "loadNestedEvent"); [reflexivity|].
    destruct (String.eqb functionName "createNextEvent"); [reflexivity|].
    destruct (String.eqb functionName "loadRemoteEvent"); reflexivity.
Qed.
